(** * Family chores tracker: the storage operations of [phase2_chores_app.py]

    A shallow embedding of the functions of [phase2_chores_app.py] that read
    and write the five tables ([people], [chores], [assignments],
    [completions], [parental_reviews]), and the properties of the
    assignment / completion / review life cycle that hold of them.

    Conventions.
    - A calendar date is its proleptic Gregorian ordinal (Python's
      [date.toordinal()]), so [selected_date - timedelta(days=1)] is [d - 1].
    - A table is the list of its rows in insertion order; ids come from the
      table's AUTO_INCREMENT counter.
    - The table declarations are not part of the Python file.  What they may
      declare and the Python code depends on (the three uniqueness
      constraints) is a parameter, [Schema].
    - A statement runs inside the connection's transaction ([Tx]); the
      Python function around it runs in [IO], which holds the committed
      database, the photo directory and the messages shown on the page. *)

From Stdlib Require Import ZArith List Bool String Ascii Lia DecimalString.
From Stdlib Require Strings.Byte.
From Stdlib Require Import Sorted.
Import ListNotations.
Local Open Scope Z_scope.

(** ** Rows and tables *)

Definition date := Z.

Record person := mkPerson {
  p_id : Z;
  p_name : string
}.

Record chore := mkChore {
  c_id : Z;
  c_room : string;
  c_task : string;
  c_estimated_time : Z;
  c_is_recurring : bool;
  c_recurrence_type : option string;
  c_recurrence_days : option string
}.

Record assignment := mkAssignment {
  a_id : Z;
  a_chore_id : Z;
  a_person_id : option Z;
  a_assigned_date : date;
  a_due_date : date
}.

Record completion := mkCompletion {
  comp_id : Z;
  comp_assignment_id : Z;
  comp_actual_minutes : Z;
  comp_notes : option string;
  comp_photo_filename : option string
}.

Record review := mkReview {
  pr_id : Z;
  pr_completion_id : Z;
  pr_reviewed_by_person_id : Z;
  pr_approved : bool;
  pr_review_notes : option string
}.

Record Db := mkDb {
  people : list person;
  chores : list chore;
  assignments : list assignment;
  completions : list completion;
  parental_reviews : list review;
  next_assignment_id : Z;
  next_completion_id : Z;
  next_review_id : Z
}.

Definition empty_db : Db := mkDb [] [] [] [] [] 1 1 1.

(** The uniqueness constraints the table declarations may carry. *)
Record Schema := mkSchema {
  uq_assignment_chore_date : bool;
  uq_completion_assignment : bool;
  uq_review_completion : bool
}.

Definition strict_schema : Schema := mkSchema true true true.
Definition lax_schema : Schema := mkSchema false false false.

(** [mysql.connector.Error]: the one exception class the code catches. *)
Inductive Error : Type :=
| CannotConnect
| DuplicateEntry (table : string).

(** ** Statements inside a transaction *)

Inductive outcome (A : Type) : Type :=
| Returned (a : A) (tx : Db)
| Raised (e : Error).
Arguments Returned {A} a tx.
Arguments Raised {A} e.

Definition Tx (A : Type) : Type := Db -> outcome A.

Definition tx_ret {A} (a : A) : Tx A := fun tx => Returned a tx.

Definition tx_bind {A B} (c : Tx A) (k : A -> Tx B) : Tx B :=
  fun tx => match c tx with
            | Returned a tx' => k a tx'
            | Raised e => Raised e
            end.

Declare Scope tx_scope.
Delimit Scope tx_scope with tx.
Notation "x <- c1 ;; c2" := (tx_bind c1 (fun x => c2))
  (at level 61, c1 at next level, right associativity) : tx_scope.
Notation "c1 ;; c2" := (tx_bind c1 (fun _ => c2))
  (at level 61, right associativity) : tx_scope.

Definition with_assignments (tx : Db) (l : list assignment) (next : Z) : Db :=
  mkDb (people tx) (chores tx) l (completions tx) (parental_reviews tx)
       next (next_completion_id tx) (next_review_id tx).

Definition with_completions (tx : Db) (l : list completion) (next : Z) : Db :=
  mkDb (people tx) (chores tx) (assignments tx) l (parental_reviews tx)
       (next_assignment_id tx) next (next_review_id tx).

Definition with_reviews (tx : Db) (l : list review) (next : Z) : Db :=
  mkDb (people tx) (chores tx) (assignments tx) (completions tx) l
       (next_assignment_id tx) (next_completion_id tx) next.

Definition with_chores (tx : Db) (l : list chore) : Db :=
  mkDb (people tx) l (assignments tx) (completions tx) (parental_reviews tx)
       (next_assignment_id tx) (next_completion_id tx) (next_review_id tx).

(** [WHERE chore_id = %s AND assigned_date = %s] *)
Definition same_slot (chore_id : Z) (assigned_date : date) (a : assignment) : bool :=
  (a_chore_id a =? chore_id) && (a_assigned_date a =? assigned_date).

(** [SELECT id FROM assignments WHERE chore_id = %s AND assigned_date = %s]
    followed by [fetchone()]: the first matching row, if any.  The code is
    written for a table with at most one row per (chore, date); what the
    driver does with further unread rows is not modelled, and the
    properties of [assign_chore] below are stated for such tables. *)
Definition select_assignment_id (chore_id : Z) (assigned_date : date) : Tx (option Z) :=
  fun tx => Returned (option_map a_id (find (same_slot chore_id assigned_date) (assignments tx))) tx.

(** [UPDATE assignments SET person_id = %s, due_date = %s
     WHERE chore_id = %s AND assigned_date = %s] *)
Definition reassign (person_id : option Z) (due_date : date)
    (chore_id : Z) (assigned_date : date) (a : assignment) : assignment :=
  if same_slot chore_id assigned_date a
  then mkAssignment (a_id a) (a_chore_id a) person_id (a_assigned_date a) due_date
  else a.

Definition update_assignment (person_id : option Z) (due_date : date)
    (chore_id : Z) (assigned_date : date) : Tx unit :=
  fun tx => Returned tt
    (with_assignments tx
       (map (reassign person_id due_date chore_id assigned_date) (assignments tx))
       (next_assignment_id tx)).

(** [INSERT INTO assignments (chore_id, person_id, assigned_date, due_date)
     VALUES (%s, %s, %s, %s)] *)
Definition insert_assignment (s : Schema) (chore_id : Z) (person_id : option Z)
    (assigned_date due_date : date) : Tx unit :=
  fun tx =>
    if uq_assignment_chore_date s
       && existsb (same_slot chore_id assigned_date) (assignments tx)
    then Raised (DuplicateEntry "assignments")
    else Returned tt
      (with_assignments tx
         (assignments tx ++
          [mkAssignment (next_assignment_id tx) chore_id person_id assigned_date due_date])
         (next_assignment_id tx + 1)).

(** [DELETE FROM assignments WHERE assigned_date = %s] *)
Definition delete_assignments_on (d : date) : Tx unit :=
  fun tx => Returned tt
    (with_assignments tx
       (filter (fun a => negb (a_assigned_date a =? d)) (assignments tx))
       (next_assignment_id tx)).

(** [INSERT INTO completions (assignment_id, actual_minutes, notes, photo_filename)
     VALUES (%s, %s, %s, %s)] *)
Definition insert_completion (s : Schema) (assignment_id actual_minutes : Z)
    (notes photo_filename : option string) : Tx unit :=
  fun tx =>
    if uq_completion_assignment s
       && existsb (fun c => comp_assignment_id c =? assignment_id) (completions tx)
    then Raised (DuplicateEntry "completions")
    else Returned tt
      (with_completions tx
         (completions tx ++
          [mkCompletion (next_completion_id tx) assignment_id actual_minutes notes photo_filename])
         (next_completion_id tx + 1)).

(** [INSERT INTO parental_reviews (completion_id, reviewed_by_person_id, approved, review_notes)
     VALUES (%s, %s, %s, %s)] *)
Definition insert_review (s : Schema) (completion_id reviewer_person_id : Z)
    (approved : bool) (review_notes : option string) : Tx unit :=
  fun tx =>
    if uq_review_completion s
       && existsb (fun r => pr_completion_id r =? completion_id) (parental_reviews tx)
    then Raised (DuplicateEntry "parental_reviews")
    else Returned tt
      (with_reviews tx
         (parental_reviews tx ++
          [mkReview (next_review_id tx) completion_id reviewer_person_id approved review_notes])
         (next_review_id tx + 1)).

(** [UPDATE chores SET is_recurring = %s, recurrence_type = %s, recurrence_days = %s
     WHERE id = %s] *)
Definition update_chore (is_recurring : bool) (recurrence_type recurrence_days : option string)
    (chore_id : Z) : Tx unit :=
  fun tx => Returned tt
    (with_chores tx
       (map (fun c => if c_id c =? chore_id
                      then mkChore (c_id c) (c_room c) (c_task c) (c_estimated_time c)
                                   is_recurring recurrence_type recurrence_days
                      else c)
            (chores tx))).

(** ** The Python functions: connection, commit, messages *)

(** What the functions put on the page ([st.error], [st.info],
    [st.success]); message texts are given without their pictograms. *)
Inductive Msg : Type :=
| StError (text : string) (e : Error)
| StInfo (text : string)
| StSuccess (text : string).

Record World := mkWorld {
  reachable : bool;
  db : Db;
  chore_photos : list (string * list Byte.byte);
  page : list Msg
}.

Definition IO (A : Type) : Type := World -> A * World.

Definition io_ret {A} (a : A) : IO A := fun w => (a, w).

Definition io_bind {A B} (c : IO A) (k : A -> IO B) : IO B :=
  fun w => let (a, w') := c w in k a w'.

Declare Scope io_scope.
Delimit Scope io_scope with io.
Notation "x <- c1 ;; c2" := (io_bind c1 (fun x => c2))
  (at level 61, c1 at next level, right associativity) : io_scope.
Notation "c1 ;; c2" := (io_bind c1 (fun _ => c2))
  (at level 61, right associativity) : io_scope.

Definition show (m : Msg) : IO unit :=
  fun w => (tt, mkWorld (reachable w) (db w) (chore_photos w) (page w ++ [m])).

Definition commit (tx : Db) : IO unit :=
  fun w => (tt, mkWorld (reachable w) tx (chore_photos w) (page w)).

Definition write_file (name : string) (data : list Byte.byte) : IO unit :=
  fun w => (tt, mkWorld (reachable w) (db w)
                  ((name, data) :: filter (fun f => negb (String.eqb (fst f) name)) (chore_photos w))
                  (page w)).

(** [get_db_connection]: a connection (here: the transaction's view of the
    database) or, after an error message on the page, [None]. *)
Definition get_db_connection : IO (option Db) :=
  fun w =>
    if reachable w then (Some (db w), w)
    else (show (StError "Error connecting to MySQL database: " CannotConnect) ;;
          show (StInfo "Make sure you've created .streamlit/secrets.toml with your database credentials") ;;
          io_ret None)%io w.

(** The body shared by the four writing functions:
    [try: <statements>; conn.commit(); return True
     except Error as e: st.error(...); return False
     finally: conn.close()].
    Closing the connection without a commit discards the transaction. *)
Definition try_commit (label : string) (body : Tx unit) (conn : Db) : IO bool :=
  match body conn with
  | Returned _ tx' => (commit tx' ;; io_ret true)%io
  | Raised e => (show (StError label e) ;; io_ret false)%io
  end.

(** [assign_chore(chore_id, person_id, assigned_date, due_date=None)] *)
Definition assign_chore (s : Schema) (chore_id person_id : Z)
    (assigned_date : date) (due_date : option date) : IO bool :=
  (conn <- get_db_connection ;;
   match conn with
   | Some tx =>
       let due_date := match due_date with None => assigned_date | Some d => d end in
       try_commit "Error assigning chore: "
         (existing <- select_assignment_id chore_id assigned_date ;;
          match existing with
          | Some _ => update_assignment (Some person_id) due_date chore_id assigned_date
          | None => insert_assignment s chore_id (Some person_id) assigned_date due_date
          end)%tx tx
   | None => io_ret false
   end)%io.

(** [generate_recurring_assignments(target_date)]: the Python function calls
    the stored procedure of the same name, which is not part of the Python
    file; [callproc] is that procedure. *)
Definition generate_recurring_assignments (callproc : date -> Tx unit)
    (target_date : date) : IO bool :=
  (conn <- get_db_connection ;;
   match conn with
   | Some tx => try_commit "Error generating recurring assignments: " (callproc target_date) tx
   | None => io_ret false
   end)%io.

(** [mark_chore_complete(assignment_id, actual_minutes, notes, photo_data, photo_filename)];
    [now] is [datetime.now().strftime("%Y%m%d_%H%M%S")].  The photo is
    written before the INSERT runs. *)
Definition mark_chore_complete (s : Schema) (now : string)
    (assignment_id actual_minutes : Z) (notes : option string)
    (photo_data : option (list Byte.byte)) (photo_filename : option string) : IO bool :=
  (conn <- get_db_connection ;;
   match conn with
   | Some tx =>
       saved_filename <-
         match photo_data, photo_filename with
         | Some (b :: data), Some (String ch name) =>
             let saved_filename := (now ++ "_" ++ String ch name)%string in
             write_file saved_filename (b :: data) ;; io_ret (Some saved_filename)
         | _, _ => io_ret None
         end ;;
       try_commit "Error marking chore complete: "
         (insert_completion s assignment_id actual_minutes notes saved_filename) tx
   | None => io_ret false
   end)%io.

(** [add_parental_review(completion_id, reviewer_person_id, approved, review_notes)] *)
Definition add_parental_review (s : Schema) (completion_id reviewer_person_id : Z)
    (approved : bool) (review_notes : option string) : IO bool :=
  (conn <- get_db_connection ;;
   match conn with
   | Some tx =>
       try_commit "Error adding review: "
         (insert_review s completion_id reviewer_person_id approved review_notes) tx
   | None => io_ret false
   end)%io.

(** [update_chore_recurring(chore_id, is_recurring, recurrence_type, recurrence_days)] *)
Definition update_chore_recurring (chore_id : Z) (is_recurring : bool)
    (recurrence_type recurrence_days : option string) : IO bool :=
  (conn <- get_db_connection ;;
   match conn with
   | Some tx =>
       try_commit "Error updating chore: "
         (update_chore is_recurring recurrence_type recurrence_days chore_id) tx
   | None => io_ret false
   end)%io.

(** [get_all_people()]: [SELECT * FROM people ORDER BY name], or [[]]
    without a connection.  Names are ordered bytewise here. *)
Fixpoint insert_by_name (p : person) (l : list person) : list person :=
  match l with
  | [] => [p]
  | q :: rest => if String.leb (p_name p) (p_name q) then p :: l
                 else q :: insert_by_name p rest
  end.

Definition order_by_name (l : list person) : list person :=
  fold_right insert_by_name [] l.

Definition get_all_people : IO (list person) :=
  (conn <- get_db_connection ;;
   match conn with
   | Some tx => io_ret (order_by_name (people tx))
   | None => io_ret []
   end)%io.

(** *** The review page ([parental_review_page])

    [parents = [p for p in people if p['name'] in ['Dad', 'Mom']]];
    [reviewer] is the entry chosen in the "Reviewing as" box ([None] when
    the box is empty); the form's submit button calls [add_parental_review]
    only [if reviewer_id:]. *)
Definition is_parent_name (p : person) : bool :=
  String.eqb (p_name p) "Dad" || String.eqb (p_name p) "Mom".

Definition python_truthy (n : Z) : bool := negb (n =? 0).

Definition submit_review (s : Schema) (reviewer : option string)
    (completion_id : Z) (approve : bool) (review_notes : string) : IO bool :=
  (conn <- get_db_connection ;;
   match conn with
   | None => io_ret false
   | Some _ =>
       people <- get_all_people ;;
       let parents := filter is_parent_name people in
       let reviewer_id :=
         match reviewer with
         | Some name => option_map p_id (find (fun p => String.eqb (p_name p) name) parents)
         | None => None
         end in
       match reviewer_id with
       | Some id =>
           if python_truthy id then
             ok <- add_parental_review s completion_id id approve (Some review_notes) ;;
             if ok then show (StSuccess "Review submitted!") ;; io_ret true
             else io_ret false
           else io_ret false
       | None => io_ret false
       end
   end)%io.

(** *** "Copy from Yesterday" ([assign_chores_page])

    [DELETE FROM assignments WHERE assigned_date = selected_date], then
    [INSERT INTO assignments (chore_id, person_id, assigned_date, due_date)
     SELECT chore_id, person_id, selected_date, selected_date
     FROM assignments WHERE assigned_date = previous_date], then commit.
    The handler has no [except]: an error raised by a statement leaves the
    handler ([Some e]) and the transaction is discarded. *)
Fixpoint insert_copies (s : Schema) (target : date) (rows : list assignment) : Tx unit :=
  match rows with
  | [] => tx_ret tt
  | a :: rest =>
      (insert_assignment s (a_chore_id a) (a_person_id a) target target ;;
       insert_copies s target rest)%tx
  end.

Definition insert_select_assignments (s : Schema) (target previous : date) : Tx Z :=
  fun tx =>
    let rows := filter (fun a => a_assigned_date a =? previous) (assignments tx) in
    (insert_copies s target rows ;; tx_ret (Z.of_nat (List.length rows)))%tx tx.

Definition copy_from_yesterday (s : Schema) (selected_date : date) : IO (option Error) :=
  let previous_date := selected_date - 1 in
  (conn <- get_db_connection ;;
   match conn with
   | Some tx =>
       match (delete_assignments_on selected_date ;;
              insert_select_assignments s selected_date previous_date)%tx tx with
       | Returned rowcount tx' =>
           commit tx' ;;
           show (StSuccess ("Copied " ++ NilZero.string_of_int (Z.to_int rowcount)
                            ++ " assignments!")) ;;
           io_ret None
       | Raised e => io_ret (Some e)
       end
   | None => io_ret None
   end)%io.

(** *** The individual report ([get_individual_report])

    The query joins each assignment of the person in the date range with
    its chore and (LEFT JOIN) its completions, groups by assigned date and
    orders by date.  The exact-value arithmetic of
    [ROUND(COUNT(DISTINCT comp.id) * 100.0 / COUNT(DISTINCT a.id), 1)] is
    taken over fractions; a number with one decimal is kept as its number
    of tenths; NULL is [None]. *)
Record report_row := mkReportRow {
  rr_date : date;
  rr_assigned : Z;
  rr_completed : Z;
  rr_completion_rate : option Z;
  rr_estimated_minutes : Z;
  rr_actual_minutes : Z
}.

Definition joined_row : Type := assignment * chore * option completion.

Definition jr_assignment (r : joined_row) : assignment := fst (fst r).
Definition jr_chore (r : joined_row) : chore := snd (fst r).
Definition jr_completion (r : joined_row) : option completion := snd r.

Definition left_join_completions (tx : Db) (a : assignment) : list (option completion) :=
  match filter (fun c => comp_assignment_id c =? a_id a) (completions tx) with
  | [] => [None]
  | l => map Some l
  end.

Definition assigned_to (person_id : Z) (a : assignment) : bool :=
  match a_person_id a with
  | Some p => p =? person_id
  | None => false
  end.

Definition report_join (tx : Db) (person_id : Z) (start_date end_date : date)
  : list joined_row :=
  flat_map
    (fun a =>
       flat_map
         (fun c => map (fun oc => (a, c, oc)) (left_join_completions tx a))
         (filter (fun c => c_id c =? a_chore_id a) (chores tx)))
    (filter
       (fun a => assigned_to person_id a
                 && (start_date <=? a_assigned_date a) && (a_assigned_date a <=? end_date))
       (assignments tx)).

Fixpoint insert_date (d : date) (l : list date) : list date :=
  match l with
  | [] => [d]
  | x :: rest => if d <? x then d :: l
                 else if d =? x then l
                 else x :: insert_date d rest
  end.

Definition group_dates (rows : list joined_row) : list date :=
  fold_right insert_date [] (map (fun r => a_assigned_date (jr_assignment r)) rows).

Definition count_distinct (ids : list Z) : Z :=
  Z.of_nat (List.length (nodup Z.eq_dec ids)).

Definition non_null {A} (l : list (option A)) : list A :=
  flat_map (fun o => match o with Some x => [x] | None => [] end) l.

Definition sum (l : list Z) : Z := fold_right Z.add 0 l.

(** [count * 100.0]: the fraction [count * 100 / 1]. *)
Definition sql_times_100 (count : Z) : Z * Z := (count * 100, 1).

(** [x / count]: NULL when the divisor is 0. *)
Definition sql_div (x : Z * Z) (count : Z) : option (Z * Z) :=
  if count =? 0 then None else Some (fst x, snd x * count).

(** [ROUND(x, 1)] of a fraction with a positive denominator: the nearest
    number of tenths, a tie going away from zero. *)
Definition sql_round1 (x : option (Z * Z)) : option Z :=
  match x with
  | None => None
  | Some (n, d) => Some (Z.sgn n * ((20 * Z.abs n + d) / (2 * d)))
  end.

Definition report_group (rows : list joined_row) (d : date) : report_row :=
  let g := filter (fun r => a_assigned_date (jr_assignment r) =? d) rows in
  let assigned := count_distinct (map (fun r => a_id (jr_assignment r)) g) in
  let completed := count_distinct (map comp_id (non_null (map jr_completion g))) in
  mkReportRow d assigned completed
    (sql_round1 (sql_div (sql_times_100 completed) assigned))
    (sum (map (fun r => c_estimated_time (jr_chore r)) g))
    (sum (map (fun r => match jr_completion r with
                        | Some c => comp_actual_minutes c
                        | None => 0
                        end) g)).

Definition individual_report_query (tx : Db) (person_id : Z) (start_date end_date : date)
  : list report_row :=
  let rows := report_join tx person_id start_date end_date in
  map (report_group rows) (group_dates rows).

Definition get_individual_report (person_id : Z) (start_date end_date : date)
  : IO (list report_row) :=
  (conn <- get_db_connection ;;
   match conn with
   | Some tx => io_ret (individual_report_query tx person_id start_date end_date)
   | None => io_ret []
   end)%io.

(** *** The recurring-setup page ([recurring_setup_page])

    The day box offers ["M", "T", "W", "TH", "F", "SA", "SU"]; the chosen
    days are stored as [','.join(days)], and read back as
    [chore['recurrence_days'].split(',') if chore['recurrence_days'] else []]. *)
Inductive Weekday : Type := Mon | Tue | Wed | Thu | Fri | Sat | Sun.

Definition day_code (w : Weekday) : string :=
  match w with
  | Mon => "M" | Tue => "T" | Wed => "W" | Thu => "TH"
  | Fri => "F" | Sat => "SA" | Sun => "SU"
  end.

(** [sep.join(l)] *)
Fixpoint join (sep : string) (l : list string) : string :=
  match l with
  | [] => ""
  | x :: rest =>
      match rest with
      | [] => x
      | _ :: _ => (x ++ sep ++ join sep rest)%string
      end
  end.

(** [s.split(',')] *)
Fixpoint split_comma (s : string) : list string :=
  match s with
  | EmptyString => [EmptyString]
  | String ch s' =>
      if Ascii.eqb ch "," then EmptyString :: split_comma s'
      else match split_comma s' with
           | [] => [String ch EmptyString]
           | t :: ts => String ch t :: ts
           end
  end.

Definition recurring_setup_save (chore_id : Z) (is_recurring : bool)
    (recurrence_type : string) (days : list Weekday) : IO bool :=
  let recurrence_days :=
    if String.eqb recurrence_type "specific_days"
    then Some (join "," (map day_code days)) else None in
  (ok <- (if is_recurring
          then update_chore_recurring chore_id true (Some recurrence_type) recurrence_days
          else update_chore_recurring chore_id false None None) ;;
   if ok then show (StSuccess "Updated!") ;; io_ret true else io_ret false)%io.

Definition stored_day_codes (c : chore) : list string :=
  match c_recurrence_days c with
  | Some (String ch s) => split_comma (String ch s)
  | _ => []
  end.

(** ** The recurrence rules and the generation procedure

    The stored procedure [generate_recurring_assignments] and the rule
    evaluation it performs are not part of the Python file. *)

(** Modelled from the spec: the tagged variant RecurrenceRule of section 3
    (the stored procedure's view of a chore's recurrence columns). *)
Inductive RecurrenceRule : Type :=
| none
| daily
| weekly (anchor : Weekday)
| monthly (anchor_day : Z)
| weekdays
| specific_days (days : list Weekday).

Definition weekday_eqb (a b : Weekday) : bool :=
  match a, b with
  | Mon, Mon | Tue, Tue | Wed, Wed | Thu, Thu | Fri, Fri | Sat, Sat | Sun, Sun => true
  | _, _ => false
  end.

(** [date.weekday()]: Monday is 0; ordinal 1 is a Monday. *)
Definition weekday_index (d : date) : Z := (d + 6) mod 7.

Definition weekday_of (d : date) : Weekday :=
  match weekday_index d with
  | 0 => Mon | 1 => Tue | 2 => Wed | 3 => Thu | 4 => Fri | 5 => Sat | _ => Sun
  end.

(** Year, month and day of an ordinal (proleptic Gregorian calendar). *)
Definition civil (d : date) : Z * Z * Z :=
  let z := d + 305 in
  let era := z / 146097 in
  let doe := z - era * 146097 in
  let yoe := (doe - doe / 1460 + doe / 36524 - doe / 146096) / 365 in
  let doy := doe - (365 * yoe + yoe / 4 - yoe / 100) in
  let mp := (5 * doy + 2) / 153 in
  let day := doy - (153 * mp + 2) / 5 + 1 in
  let month := if mp <? 10 then mp + 3 else mp - 9 in
  let year := yoe + era * 400 + (if month <=? 2 then 1 else 0) in
  (year, month, day).

Definition is_leap (y : Z) : bool :=
  ((y mod 4 =? 0) && negb (y mod 100 =? 0)) || (y mod 400 =? 0).

Definition days_in_month (y m : Z) : Z :=
  if m =? 2 then (if is_leap y then 29 else 28)
  else if (m =? 4) || (m =? 6) || (m =? 9) || (m =? 11) then 30
  else 31.

(** Modelled from the spec: the Recurrence Rule Evaluator [is_due] of
    section 4.1, which the stored procedure (not part of the Python file)
    performs. *)
Definition is_due (rule : RecurrenceRule) (target_date : date) : bool :=
  match rule with
  | none => false
  | daily => true
  | weekly anchor => weekday_eqb (weekday_of target_date) anchor
  | monthly anchor_day =>
      let '(y, m, day) := civil target_date in
      day =? Z.min anchor_day (days_in_month y m)
  | weekdays =>
      match weekday_of target_date with
      | Sat | Sun => false
      | _ => true
      end
  | specific_days days => existsb (weekday_eqb (weekday_of target_date)) days
  end.

(** Modelled from the spec: the anchors of weekly and monthly rules, which
    section 4.1 requires to be explicit and stored; the chores table the
    Python file reads has no column for them, so they are a parameter. *)
Record AnchorPolicy := mkAnchorPolicy {
  weekly_anchor : chore -> Weekday;
  monthly_anchor : chore -> Z
}.

(** Modelled from the spec: the weekday a stored day code stands for (the
    decoding is the stored procedure's, not part of the Python file). *)
Definition weekday_of_code (code : string) : option Weekday :=
  find (fun w => String.eqb (day_code w) code) [Mon; Tue; Wed; Thu; Fri; Sat; Sun].

(** Modelled from the spec: the day set of a chore's specific_days rule,
    read from the recurrence_days column the way the setup page reads it. *)
Definition stored_days (c : chore) : list Weekday :=
  non_null (map weekday_of_code (stored_day_codes c)).

(** Modelled from the spec: the rule a row of [chores] stands for (section 3:
    an absent rule means manually assigned only); the decoding of the
    recurrence columns is the stored procedure's, not part of the Python
    file. *)
Definition rule_of_chore (pol : AnchorPolicy) (c : chore) : RecurrenceRule :=
  if c_is_recurring c then
    match c_recurrence_type c with
    | Some t =>
        if String.eqb t "daily" then daily
        else if String.eqb t "weekly" then weekly (weekly_anchor pol c)
        else if String.eqb t "monthly" then monthly (monthly_anchor pol c)
        else if String.eqb t "weekdays" then weekdays
        else if String.eqb t "specific_days" then specific_days (stored_days c)
        else none
    | None => none
    end
  else none.

(** Modelled from the spec: the default assignee of a generated assignment
    (section 4.2: the previous day's assignee for that chore if present,
    else null). *)
Definition previous_assignee (chore_id : Z) (target_date : date) (tx : Db) : option Z :=
  match find (same_slot chore_id (target_date - 1)) (assignments tx) with
  | Some a => a_person_id a
  | None => None
  end.

(** Modelled from the spec: the Assignment Generator of section 4.2, the
    stored procedure [generate_recurring_assignments] that the Python
    function calls and that is not part of the Python file.  For every
    chore that is due, an assignment for (chore, target date) is created
    unless one exists; an existing one is left untouched. *)
Definition generate_one (s : Schema) (pol : AnchorPolicy) (target_date : date)
    (c : chore) : Tx unit :=
  if is_due (rule_of_chore pol c) target_date then
    (existing <- select_assignment_id (c_id c) target_date ;;
     match existing with
     | Some _ => tx_ret tt
     | None =>
         fun tx => insert_assignment s (c_id c)
                     (previous_assignee (c_id c) target_date tx)
                     target_date target_date tx
     end)%tx
  else tx_ret tt.

(** Modelled from the spec: the generator's loop over the catalog. *)
Fixpoint generate_all (s : Schema) (pol : AnchorPolicy) (target_date : date)
    (cs : list chore) : Tx unit :=
  match cs with
  | [] => tx_ret tt
  | c :: rest => (generate_one s pol target_date c ;; generate_all s pol target_date rest)%tx
  end.

(** Modelled from the spec: the procedure as [callproc] runs it, over the
    chores table of the transaction. *)
Definition generate_proc (s : Schema) (pol : AnchorPolicy) (target_date : date) : Tx unit :=
  fun tx => generate_all s pol target_date (chores tx) tx.

(** [generate(d)]: the Python function over the modelled procedure. *)
Definition generate (s : Schema) (pol : AnchorPolicy) (target_date : date) : IO bool :=
  generate_recurring_assignments (generate_proc s pol) target_date.

Fixpoint repeat_io {A} (n : nat) (c : IO A) (w : World) : World :=
  match n with
  | O => w
  | S n' => repeat_io n' c (snd (c w))
  end.

(** ** Histories of generation and assignment *)

(** [SELECT COUNT( * ) FROM assignments WHERE chore_id = %s AND assigned_date = %s] *)
Definition count_assignments (tx : Db) (chore_id : Z) (d : date) : nat :=
  List.length (filter (same_slot chore_id d) (assignments tx)).

Definition unique_assignments (tx : Db) : Prop :=
  forall chore_id d, (count_assignments tx chore_id d <= 1)%nat.

(** What happens to the store between two page loads: a [generate], a
    manual [assign], or the storage going down or coming back. *)
Inductive event : Type :=
| Generate (target_date : date)
| Assign (chore_id person_id : Z) (assigned_date : date) (due_date : option date)
| Storage (up : bool).

Definition step (s : Schema) (pol : AnchorPolicy) (e : event) (w : World) : World :=
  match e with
  | Generate d => snd (generate s pol d w)
  | Assign chore_id person_id assigned_date due_date =>
      snd (assign_chore s chore_id person_id assigned_date due_date w)
  | Storage up => mkWorld up (db w) (chore_photos w) (page w)
  end.

Definition run (s : Schema) (pol : AnchorPolicy) (es : list event) (w : World) : World :=
  fold_left (fun w e => step s pol e w) es w.

(** The statements of [assign_chore], run in one transaction. *)
Definition assign_statements (s : Schema) (chore_id person_id : Z)
    (assigned_date due_date : date) : Tx unit :=
  (existing <- select_assignment_id chore_id assigned_date ;;
   match existing with
   | Some _ => update_assignment (Some person_id) due_date chore_id assigned_date
   | None => insert_assignment s chore_id (Some person_id) assigned_date due_date
   end)%tx.

(** Does the (chore, date) pair have an assignment? *)
Definition has_row (tx : Db) (chore_id : Z) (d : date) : bool :=
  existsb (same_slot chore_id d) (assignments tx).

(** The photo [mark_chore_complete] writes, if any: its name and bytes. *)
Definition saved_photo (now : string) (photo_data : option (list Byte.byte))
    (photo_filename : option string) : option (string * list Byte.byte) :=
  match photo_data, photo_filename with
  | Some (b :: data), Some (String ch name) =>
      Some ((now ++ "_" ++ String ch name)%string, b :: data)
  | _, _ => None
  end.

Definition has_completion (tx : Db) (assignment_id : Z) : bool :=
  existsb (fun c => comp_assignment_id c =? assignment_id) (completions tx).

Definition has_review (tx : Db) (completion_id : Z) : bool :=
  existsb (fun r => pr_completion_id r =? completion_id) (parental_reviews tx).

Definition connection_error : list Msg :=
  [StError "Error connecting to MySQL database: " CannotConnect;
   StInfo "Make sure you've created .streamlit/secrets.toml with your database credentials"].

(** The rate the spec asks of a report row, [round(100 * completed /
    assigned, 1)], in tenths of a percent: the number of tenths nearest to
    [100 * completed / assigned], a tie going up.  Stated here to compare
    the query's column with it. *)
Definition round_rate (completed assigned : Z) : Z :=
  (2000 * completed + assigned) / (2 * assigned).

(** A string without a comma. *)
Fixpoint comma_free (s : string) : bool :=
  match s with
  | EmptyString => true
  | String ch s' => negb (Ascii.eqb ch ",") && comma_free s'
  end.

(** Fourteen consecutive dates. *)
Definition two_weeks_from (d : date) : list date :=
  map (fun k => d + Z.of_nat k) (seq 0 14).

(** The rows [INSERT ... SELECT] adds for the selected rows: one per row,
    numbered from the table's counter, dated and due on the target date. *)
Fixpoint copied_rows (next : Z) (target : date) (rows : list assignment) : list assignment :=
  match rows with
  | [] => []
  | a :: rest =>
      mkAssignment next (a_chore_id a) (a_person_id a) target target
      :: copied_rows (next + 1) target rest
  end.

Definition on_date (d : date) (a : assignment) : bool := a_assigned_date a =? d.
Definition off_date (d : date) (a : assignment) : bool := negb (a_assigned_date a =? d).

(** ** The four writing operations, and what their caller can see *)





(** The pages [main] offers for a session role (page titles without their
    pictograms). *)
Definition pages (user_role : string) : list string :=
  if String.eqb user_role "parent"
  then ["Assign Chores"; "Complete Chores"; "Parental Review"; "Family Reports";
        "Individual Reports"; "Manage Chores"; "Recurring Setup"]%string
  else ["My Chores"; "My Progress"]%string.

(** ** A small household, used in the examples *)

Definition new_year_2024 : date := 738886.

Definition dishes : chore := mkChore 1 "Kitchen" "Dishes" 15 true (Some "daily"%string) None.

Definition dad : person := mkPerson 1 "Dad".
Definition timmy : person := mkPerson 2 "Timmy".

Definition household : Db := mkDb [dad; timmy] [dishes] [] [] [] 1 1 1.

(** Dishes assigned to Timmy on 2024-01-01 ... *)
Definition household_assigned : Db :=
  mkDb [dad; timmy] [dishes]
       [mkAssignment 1 1 (Some 2) new_year_2024 new_year_2024] [] [] 2 1 1.

(** ... and completed by him in 12 minutes. *)
Definition household_completed : Db :=
  mkDb [dad; timmy] [dishes]
       [mkAssignment 1 1 (Some 2) new_year_2024 new_year_2024]
       [mkCompletion 1 1 12 (Some "done"%string) None] [] 2 2 1.

(** Three chores for Timmy on 2024-01-01, one of them completed. *)
Definition household_busy : Db :=
  mkDb [dad; timmy]
       [dishes; mkChore 2 "Hall" "Shoes" 5 false None None;
        mkChore 3 "Garden" "Leaves" 30 false None None]
       [mkAssignment 1 1 (Some 2) new_year_2024 new_year_2024;
        mkAssignment 2 2 (Some 2) new_year_2024 new_year_2024;
        mkAssignment 3 3 (Some 2) new_year_2024 (new_year_2024 + 1);
        mkAssignment 4 1 (Some 1) (new_year_2024 + 1) (new_year_2024 + 1)]
       [mkCompletion 1 1 12 (Some "done"%string) None] [] 5 2 1.

Definition online (tx : Db) : World := mkWorld true tx [] [].

Definition no_anchor : AnchorPolicy := mkAnchorPolicy (fun _ => Mon) (fun _ => 1).

(** ** The other queries and handlers of the pages *)

(** *** "Clear All" ([assign_chores_page])

    [DELETE FROM assignments WHERE assigned_date = selected_date], commit;
    like the copy handler it has no [except]. *)
Definition clear_all (selected_date : date) : IO (option Error) :=
  (conn <- get_db_connection ;;
   match conn with
   | Some tx =>
       match delete_assignments_on selected_date tx with
       | Returned _ tx' => commit tx' ;; show (StSuccess "Cleared!") ;; io_ret None
       | Raised e => io_ret (Some e)
       end
   | None => io_ret None
   end)%io.

(** LEFT JOIN: the matching rows, or one row of NULLs when there is none. *)
Definition left_join {A} (matching : list A) : list (option A) :=
  match matching with
  | [] => [None]
  | _ :: _ => map Some matching
  end.

(** *** [get_assignments_for_date]

    A row of the query (the column [completed_datetime], which the storage
    fills in, is left out). *)
Record assignment_view := mkAssignmentView {
  av_assignment_id : Z;
  av_due_date : date;
  av_chore_id : Z;
  av_room : string;
  av_task : string;
  av_estimated_time : Z;
  av_assigned_to : string;
  av_person_id : Z;
  av_completion_id : option Z;
  av_is_completed : bool;
  av_actual_minutes : option Z;
  av_photo_filename : option string;
  av_completion_notes : option string;
  av_review_id : option Z;
  av_approved : option bool;
  av_review_notes : option string;
  av_reviewed_by : option string
}.

Definition is_person_of (a : assignment) (p : person) : bool :=
  match a_person_id a with
  | Some i => p_id p =? i
  | None => false
  end.

Definition reviews_of (tx : Db) (comp : option completion) : list (option review) :=
  match comp with
  | Some cm => left_join (filter (fun r => pr_completion_id r =? comp_id cm) (parental_reviews tx))
  | None => [None]
  end.

Definition reviewers_of (tx : Db) (pr : option review) : list (option person) :=
  match pr with
  | Some r => left_join (filter (fun q => p_id q =? pr_reviewed_by_person_id r) (people tx))
  | None => [None]
  end.

Definition assignment_views (tx : Db) (target_date : date) : list assignment_view :=
  flat_map (fun a =>
    flat_map (fun c =>
      flat_map (fun p =>
        flat_map (fun comp =>
          flat_map (fun pr =>
            map (fun p2 =>
                   mkAssignmentView (a_id a) (a_due_date a) (c_id c) (c_room c) (c_task c)
                     (c_estimated_time c) (p_name p) (p_id p)
                     (option_map comp_id comp)
                     (match comp with Some _ => true | None => false end)
                     (option_map comp_actual_minutes comp)
                     (match comp with Some cm => comp_photo_filename cm | None => None end)
                     (match comp with Some cm => comp_notes cm | None => None end)
                     (option_map pr_id pr)
                     (option_map pr_approved pr)
                     (match pr with Some r => pr_review_notes r | None => None end)
                     (option_map p_name p2))
                (reviewers_of tx pr))
            (reviews_of tx comp))
          (left_join (filter (fun cm => comp_assignment_id cm =? a_id a) (completions tx))))
        (filter (is_person_of a) (people tx)))
      (filter (fun c => c_id c =? a_chore_id a) (chores tx)))
    (filter (on_date target_date) (assignments tx)).

(** [ORDER BY a.due_date, c.room, c.task] (strings ordered bytewise). *)
Definition view_before (x y : assignment_view) : bool :=
  if av_due_date x <? av_due_date y then true
  else if av_due_date y <? av_due_date x then false
  else if String.ltb (av_room x) (av_room y) then true
  else if String.ltb (av_room y) (av_room x) then false
  else String.leb (av_task x) (av_task y).

Fixpoint insert_view (x : assignment_view) (l : list assignment_view) : list assignment_view :=
  match l with
  | [] => [x]
  | y :: rest => if view_before x y then x :: l else y :: insert_view x rest
  end.

Definition order_views (l : list assignment_view) : list assignment_view :=
  fold_right insert_view [] l.

Definition get_assignments_for_date (target_date : date) : IO (list assignment_view) :=
  (conn <- get_db_connection ;;
   match conn with
   | Some tx => io_ret (order_views (assignment_views tx target_date))
   | None => io_ret []
   end)%io.

(** *** The completion form ([complete_chores_page])

    The page lists the assignments of the date, filtered by person and by
    "Show Completed"; a row that is not completed carries a form, and its
    submit button calls [mark_chore_complete].  The minutes box has
    [min_value=1]; the notes box gives a string; [photo] is the uploaded
    file (its name and bytes), if any.  The info message names the date in
    the source. *)
Definition complete_chores_submit (s : Schema) (now : string) (selected_date : date)
    (filter_person : string) (show_completed : bool)
    (assignment_id actual_minutes : Z) (notes : string)
    (photo : option (string * list Byte.byte)) : IO bool :=
  (assignments <- get_assignments_for_date selected_date ;;
   match assignments with
   | [] => show (StInfo "No chores assigned for the selected date") ;; io_ret false
   | _ :: _ =>
       let filtered :=
         if String.eqb filter_person "All" then assignments
         else filter (fun a => String.eqb (av_assigned_to a) filter_person) assignments in
       let filtered :=
         if show_completed then filtered
         else filter (fun a => negb (av_is_completed a)) filtered in
       match find (fun a => (av_assignment_id a =? assignment_id) && negb (av_is_completed a))
                  filtered with
       | Some a =>
           if 1 <=? actual_minutes then
             ok <- mark_chore_complete s now (av_assignment_id a) actual_minutes (Some notes)
                     (option_map snd photo) (option_map fst photo) ;;
             if ok then show (StSuccess "Chore completed!") ;; io_ret true
             else io_ret false
           else io_ret false
       | None => io_ret false
       end
   end)%io.

(** *** The review form ([parental_review_page])

    A row of the page's query.  [ORDER BY comp.completed_datetime DESC]:
    the storage stamps a completion when it is inserted, so the rows come
    newest first. *)
Record completion_view := mkCompletionView {
  cv_completion_id : Z;
  cv_assigned_date : date;
  cv_room : string;
  cv_task : string;
  cv_completed_by : string;
  cv_actual_minutes : Z;
  cv_photo_filename : option string;
  cv_notes : option string;
  cv_review_id : option Z;
  cv_approved : option bool;
  cv_review_notes : option string;
  cv_reviewed_by : option string
}.

Definition completion_views (tx : Db) (start_date end_date : date) : list completion_view :=
  rev
    (flat_map (fun comp =>
       flat_map (fun a =>
         flat_map (fun c =>
           flat_map (fun p =>
             flat_map (fun pr =>
               map (fun p2 =>
                      mkCompletionView (comp_id comp) (a_assigned_date a) (c_room c) (c_task c)
                        (p_name p) (comp_actual_minutes comp) (comp_photo_filename comp)
                        (comp_notes comp)
                        (option_map pr_id pr)
                        (option_map pr_approved pr)
                        (match pr with Some r => pr_review_notes r | None => None end)
                        (option_map p_name p2))
                   (reviewers_of tx pr))
               (reviews_of tx (Some comp)))
             (filter (is_person_of a) (people tx)))
           (filter (fun c => c_id c =? a_chore_id a) (chores tx)))
         (filter (fun a => (a_id a =? comp_assignment_id comp)
                           && (start_date <=? a_assigned_date a)
                           && (a_assigned_date a <=? end_date))
                 (assignments tx)))
       (completions tx)).

(** The whole page: connection, query, "Show already reviewed", the
    reviewer box, and the form of one completion, which exists only for a
    listed row without a review. *)
Definition parental_review_submit (s : Schema) (start_date end_date : date)
    (show_reviewed : bool) (reviewer : option string)
    (completion_id : Z) (approve : bool) (review_notes : string) : IO bool :=
  (conn <- get_db_connection ;;
   match conn with
   | None => io_ret false
   | Some tx =>
       let completions := completion_views tx start_date end_date in
       let completions :=
         if show_reviewed then completions
         else filter (fun c => match cv_review_id c with None => true | Some _ => false end)
                     completions in
       people <- get_all_people ;;
       let parents := filter is_parent_name people in
       let reviewer_id :=
         match reviewer with
         | Some name => option_map p_id (find (fun p => String.eqb (p_name p) name) parents)
         | None => None
         end in
       match find (fun c => (cv_completion_id c =? completion_id)
                            && match cv_review_id c with None => true | Some _ => false end)
                  completions with
       | Some c =>
           match reviewer_id with
           | Some id =>
               if python_truthy id then
                 ok <- add_parental_review s (cv_completion_id c) id approve (Some review_notes) ;;
                 if ok then show (StSuccess "Review submitted!") ;; io_ret true
                 else io_ret false
               else io_ret false
           | None => io_ret false
           end
       | None => io_ret false
       end
   end)%io.

(** *** [get_all_chores] and the save button of [assign_chores_page] *)

Definition recurring_status (c : chore) : string :=
  if c_is_recurring c then "Yes" else "No".

Definition chore_before (x y : chore) : bool :=
  if String.ltb (c_room x) (c_room y) then true
  else if String.ltb (c_room y) (c_room x) then false
  else String.leb (c_task x) (c_task y).

Fixpoint insert_chore (x : chore) (l : list chore) : list chore :=
  match l with
  | [] => [x]
  | y :: rest => if chore_before x y then x :: l else y :: insert_chore x rest
  end.

(** [SELECT *, CASE WHEN is_recurring THEN 'Yes' ELSE 'No' END as recurring_status
     FROM chores ORDER BY room, task] *)
Definition get_all_chores : IO (list (chore * string)) :=
  (conn <- get_db_connection ;;
   match conn with
   | Some tx => io_ret (map (fun c => (c, recurring_status c))
                            (fold_right insert_chore [] (chores tx)))
   | None => io_ret []
   end)%io.

(** [people_dict = {p['name']: p['id'] for p in people}]: of two people
    with one name the later entry stays. *)
Definition people_dict (people : list person) (name : string) : option Z :=
  option_map p_id (find (fun p => String.eqb (p_name p) name) (rev people)).

(** The save button of one chore's row: the page needs chores and people;
    [assigned_to] is the entry chosen in the "Assign to" box
    (["Unassigned"] or a name), [due_date] the date in the "Due" box.  The
    page's warning is kept as an info message; the success message is a
    check mark only. *)
Definition assign_chores_save (s : Schema) (selected_date : date)
    (chore_id : Z) (assigned_to : string) (due_date : date) : IO bool :=
  (chores <- get_all_chores ;;
   people <- get_all_people ;;
   _ <- get_assignments_for_date selected_date ;;
   match chores, people with
   | [], _ | _, [] =>
       show (StInfo "Please ensure chores and family members are in the database.") ;;
       io_ret false
   | _ :: _, _ :: _ =>
       if existsb (fun c => c_id (fst c) =? chore_id) chores
          && negb (String.eqb assigned_to "Unassigned")
       then
         match people_dict people assigned_to with
         | Some person_id =>
             ok <- assign_chore s chore_id person_id selected_date (Some due_date) ;;
             if ok then show (StSuccess "") ;; io_ret true else io_ret false
         | None => io_ret false
         end
       else io_ret false
   end)%io.

(** *** [get_family_report] *)
Record family_row := mkFamilyRow {
  fr_date : date;
  fr_total_assigned : Z;
  fr_total_completed : Z;
  fr_completion_rate : option Z
}.

Definition family_join (tx : Db) (start_date end_date : date)
  : list (assignment * option completion) :=
  flat_map
    (fun a => map (fun oc => (a, oc)) (left_join_completions tx a))
    (filter (fun a => (start_date <=? a_assigned_date a) && (a_assigned_date a <=? end_date))
            (assignments tx)).

Definition family_group (rows : list (assignment * option completion)) (d : date)
  : family_row :=
  let g := filter (fun r => a_assigned_date (fst r) =? d) rows in
  let assigned := count_distinct (map (fun r => a_id (fst r)) g) in
  let completed := count_distinct (map comp_id (non_null (map snd g))) in
  mkFamilyRow d assigned completed
    (sql_round1 (sql_div (sql_times_100 completed) assigned)).

Definition family_report_query (tx : Db) (start_date end_date : date) : list family_row :=
  let rows := family_join tx start_date end_date in
  map (family_group rows)
      (fold_right insert_date [] (map (fun r => a_assigned_date (fst r)) rows)).

Definition get_family_report (start_date end_date : date) : IO (list family_row) :=
  (conn <- get_db_connection ;;
   match conn with
   | Some tx => io_ret (family_report_query tx start_date end_date)
   | None => io_ret []
   end)%io.

(** *** The periods of the report pages

    "This Week": [start_date = date.today() - timedelta(days=date.today().weekday())],
    [end_date = date.today()]. *)
Definition this_week (today : date) : date * date :=
  (today - weekday_index today, today).

(** ** Invariants of the tables *)

Definition unique_completions (tx : Db) : Prop :=
  forall assignment_id,
    le (List.length (filter (fun c => comp_assignment_id c =? assignment_id) (completions tx)))
       1%nat.

Definition unique_reviews (tx : Db) : Prop :=
  forall completion_id,
    le (List.length (filter (fun r => pr_completion_id r =? completion_id)
                              (parental_reviews tx)))
       1%nat.

(** ** Sanity checks of the calendar *)

Example civil_2024_01_01 : civil 738886 = (2024, 1, 1) /\ weekday_of 738886 = Mon.
Proof. split; reflexivity. Qed.

Example civil_2024_02_29 : civil 738945 = (2024, 2, 29) /\ weekday_of 738945 = Thu.
Proof. split; reflexivity. Qed.

Example civil_2023_04_30 : civil 738640 = (2023, 4, 30) /\ weekday_of 738640 = Sun.
Proof. split; reflexivity. Qed.

Example civil_first_day : civil 1 = (1, 1, 1) /\ weekday_of 1 = Mon.
Proof. split; reflexivity. Qed.

Example monthly_31_clamps_to_30 :
  is_due (monthly 31) 738640 = true /\ is_due (monthly 31) 738639 = false.
Proof. split; reflexivity. Qed.

Example split_examples :
  split_comma "T,TH" = ["T"; "TH"]%string /\ split_comma "" = [""%string]
  /\ split_comma "," = [""; ""]%string.
Proof. repeat split; reflexivity. Qed.

(** ** Connection, commit and failure: what every writing function does *)

Lemma try_commit_result label body conn w :
  try_commit label body conn w =
  match body conn with
  | Returned _ tx' => (true, mkWorld (reachable w) tx' (chore_photos w) (page w))
  | Raised e => (false, mkWorld (reachable w) (db w) (chore_photos w)
                          (page w ++ [StError label e]))
  end.
Proof. unfold try_commit. destruct (body conn); reflexivity. Qed.

Lemma get_db_connection_up w :
  reachable w = true -> get_db_connection w = (Some (db w), w).
Proof. unfold get_db_connection. intros ->. reflexivity. Qed.

Lemma get_db_connection_down w :
  reachable w = false ->
  get_db_connection w =
  (None, mkWorld false (db w) (chore_photos w)
           (page w ++ connection_error)).
Proof.
  unfold get_db_connection. intros H. rewrite H.
  unfold io_bind, show, io_ret. cbn. rewrite H, <- app_assoc. reflexivity.
Qed.

(** ** Counting the rows of a (chore, date) pair *)

Lemma same_slot_reassign p due c d c' d' a :
  same_slot c' d' (reassign p due c d a) = same_slot c' d' a.
Proof. unfold reassign. destruct (same_slot c d a); reflexivity. Qed.

Lemma count_after_update p due c d tx c' d' :
  List.length (filter (same_slot c' d') (map (reassign p due c d) (assignments tx)))
  = count_assignments tx c' d'.
Proof.
  unfold count_assignments. induction (assignments tx) as [|a l IH]; [reflexivity|].
  cbn [map filter]. rewrite same_slot_reassign.
  destruct (same_slot c' d' a); cbn [List.length]; rewrite IH; reflexivity.
Qed.

Lemma ids_after_update p due c d l :
  map a_id (map (reassign p due c d) l) = map a_id l.
Proof.
  induction l as [|a l IH]; [reflexivity|]. cbn [map]. rewrite IH. f_equal.
  unfold reassign. destruct (same_slot c d a); reflexivity.
Qed.

Lemma find_none_count c d tx :
  find (same_slot c d) (assignments tx) = None -> count_assignments tx c d = 0%nat.
Proof.
  unfold count_assignments. induction (assignments tx) as [|a l IH]; [reflexivity|].
  cbn [find filter]. destruct (same_slot c d a); [discriminate|exact IH].
Qed.

Lemma same_slot_true c d a :
  same_slot c d a = true <-> a_chore_id a = c /\ a_assigned_date a = d.
Proof. unfold same_slot. rewrite andb_true_iff, !Z.eqb_eq. tauto. Qed.

Lemma count_after_insert tx c p d due c' d' :
  List.length (filter (same_slot c' d')
                 (assignments tx ++ [mkAssignment (next_assignment_id tx) c p d due]))
  = (count_assignments tx c' d'
     + if same_slot c' d' (mkAssignment (next_assignment_id tx) c p d due) then 1 else 0)%nat.
Proof.
  unfold count_assignments. rewrite filter_app, length_app. cbn [filter].
  destruct (same_slot c' d' _); reflexivity.
Qed.

(** An insert into an empty (chore, date) slot keeps the pairs unique. *)
Lemma insert_into_free_slot_unique s c p d due tx tx' :
  unique_assignments tx ->
  count_assignments tx c d = 0%nat ->
  insert_assignment s c p d due tx = Returned tt tx' ->
  unique_assignments tx'.
Proof.
  unfold insert_assignment. intros U Z0 H.
  destruct (uq_assignment_chore_date s && _); [discriminate|].
  injection H as <-. intros c' d'. unfold count_assignments at 1. cbn [assignments with_assignments].
  rewrite count_after_insert.
  destruct (same_slot c' d' _) eqn:E.
  - apply same_slot_true in E. cbn in E. destruct E as [<- <-]. rewrite Z0. lia.
  - specialize (U c' d'). lia.
Qed.

Lemma update_unique p due c d tx tx' :
  unique_assignments tx ->
  update_assignment p due c d tx = Returned tt tx' ->
  unique_assignments tx'.
Proof.
  unfold update_assignment. intros U H. injection H as <-. intros c' d'.
  unfold count_assignments at 1. cbn [assignments with_assignments].
  rewrite count_after_update. apply U.
Qed.

Lemma assign_statements_unique s c p d due tx u tx' :
  unique_assignments tx ->
  assign_statements s c p d due tx = Returned u tx' ->
  unique_assignments tx'.
Proof.
  unfold assign_statements, tx_bind, select_assignment_id. intros U H.
  destruct (find (same_slot c d) (assignments tx)) eqn:F; cbn [option_map] in H.
  - destruct u. eapply update_unique; eauto.
  - destruct u. eapply insert_into_free_slot_unique; eauto using find_none_count.
Qed.

Lemma generate_one_unique s pol d c tx u tx' :
  unique_assignments tx ->
  generate_one s pol d c tx = Returned u tx' ->
  unique_assignments tx'.
Proof.
  unfold generate_one, tx_bind, select_assignment_id, tx_ret. intros U H.
  destruct (is_due _ d); [|injection H as _ <-; exact U].
  destruct (find (same_slot (c_id c) d) (assignments tx)) eqn:F; cbn [option_map] in H.
  - injection H as _ <-. exact U.
  - destruct u. eapply insert_into_free_slot_unique; eauto using find_none_count.
Qed.

Lemma generate_all_unique s pol d cs tx u tx' :
  unique_assignments tx ->
  generate_all s pol d cs tx = Returned u tx' ->
  unique_assignments tx'.
Proof.
  revert tx. induction cs as [|c cs IH]; intros tx U H.
  - cbn in H. injection H as _ <-. exact U.
  - cbn [generate_all] in H. unfold tx_bind in H.
    destruct (generate_one s pol d c tx) as [u1 tx1|e] eqn:G; [|discriminate].
    eapply IH; [|exact H]. eapply generate_one_unique; eauto.
Qed.

Lemma assign_chore_result s c p d due w :
  assign_chore s c p d due w =
  if reachable w
  then try_commit "Error assigning chore: "
         (assign_statements s c p d (match due with None => d | Some x => x end)) (db w) w
  else (false,
        mkWorld false (db w) (chore_photos w)
          (page w ++ connection_error)).
Proof.
  unfold assign_chore, io_bind. destruct (reachable w) eqn:R.
  - rewrite get_db_connection_up by exact R. reflexivity.
  - rewrite get_db_connection_down by exact R. reflexivity.
Qed.

Lemma generate_result callproc d w :
  generate_recurring_assignments callproc d w =
  if reachable w
  then try_commit "Error generating recurring assignments: " (callproc d) (db w) w
  else (false,
        mkWorld false (db w) (chore_photos w)
          (page w ++ connection_error)).
Proof.
  unfold generate_recurring_assignments, io_bind. destruct (reachable w) eqn:R.
  - rewrite get_db_connection_up by exact R. reflexivity.
  - rewrite get_db_connection_down by exact R. reflexivity.
Qed.

Lemma step_unique s pol e w :
  unique_assignments (db w) -> unique_assignments (db (step s pol e w)).
Proof.
  intros U. destruct e as [d|c p d due|up]; cbn [step].
  - unfold generate. rewrite generate_result. destruct (reachable w); [|exact U].
    rewrite try_commit_result.
    destruct (generate_proc s pol d (db w)) as [u tx'|e] eqn:G; cbn; [|exact U].
    eapply generate_all_unique; eauto.
  - rewrite assign_chore_result. destruct (reachable w); [|exact U].
    rewrite try_commit_result.
    destruct (assign_statements _ _ _ _ _ _) as [u tx'|e] eqn:G; cbn; [|exact U].
    eapply assign_statements_unique; eauto.
  - exact U.
Qed.

Lemma run_unique s pol es w :
  unique_assignments (db w) -> unique_assignments (db (run s pol es w)).
Proof.
  unfold run. revert w. induction es as [|e es IH]; intros w U; [exact U|].
  cbn [fold_left]. apply IH. apply step_unique. exact U.
Qed.

(** Assigning to a pair that has a row changes no id and adds no row. *)
Lemma assign_existing_in_place s c p d due w :
  (1 <= count_assignments (db w) c d)%nat ->
  map a_id (assignments (db (snd (assign_chore s c p d due w))))
  = map a_id (assignments (db w)).
Proof.
  intros C. rewrite assign_chore_result. destruct (reachable w); [|reflexivity].
  rewrite try_commit_result. unfold assign_statements, tx_bind, select_assignment_id.
  destruct (find (same_slot c d) (assignments (db w))) eqn:F; cbn.
  - apply ids_after_update.
  - apply find_none_count in F. lia.
Qed.

Lemma assign_existing_counts s c p d due w c' d' :
  (1 <= count_assignments (db w) c d)%nat ->
  count_assignments (db (snd (assign_chore s c p d due w))) c' d'
  = count_assignments (db w) c' d'.
Proof.
  intros C. rewrite assign_chore_result. destruct (reachable w); [|reflexivity].
  rewrite try_commit_result. unfold assign_statements, tx_bind, select_assignment_id.
  destruct (find (same_slot c d) (assignments (db w))) eqn:F; cbn [option_map snd db].
  - apply count_after_update.
  - apply find_none_count in F. lia.
Qed.

(** ** Generation: what one run of the procedure leaves behind *)

Lemma existsb_find {A} (f : A -> bool) l :
  existsb f l = match find f l with Some _ => true | None => false end.
Proof.
  induction l as [|a l IH]; [reflexivity|]. cbn. destruct (f a); [reflexivity|exact IH].
Qed.

Lemma has_row_after_insert tx c p d due c' d' :
  existsb (same_slot c' d')
    (assignments tx ++ [mkAssignment (next_assignment_id tx) c p d due])
  = has_row tx c' d' || same_slot c' d' (mkAssignment (next_assignment_id tx) c p d due).
Proof. unfold has_row. rewrite existsb_app. cbn. rewrite orb_false_r. reflexivity. Qed.

(** One chore of the catalog: the procedure never fails on it, adds rows
    only, leaves a row for the chore if it is due, and changes nothing if
    that row was there. *)
Lemma generate_one_spec s pol d c tx :
  exists tx',
    generate_one s pol d c tx = Returned tt tx'
    /\ chores tx' = chores tx
    /\ (forall c' d', has_row tx c' d' = true -> has_row tx' c' d' = true)
    /\ (is_due (rule_of_chore pol c) d = true -> has_row tx' (c_id c) d = true)
    /\ ((is_due (rule_of_chore pol c) d = true -> has_row tx (c_id c) d = true) -> tx' = tx).
Proof.
  unfold generate_one, tx_bind, select_assignment_id, tx_ret.
  destruct (is_due (rule_of_chore pol c) d) eqn:Due.
  - destruct (find (same_slot (c_id c) d) (assignments tx)) eqn:F; cbn [option_map].
    + exists tx. split; [reflexivity|]. split; [reflexivity|]. split; [auto|].
      split; [|reflexivity]. intros _. unfold has_row. rewrite existsb_find, F. reflexivity.
    + unfold insert_assignment. rewrite (existsb_find _ (assignments tx)), F, andb_false_r.
      eexists. split; [reflexivity|]. repeat split.
      * intros c' d' H. unfold has_row at 1. cbn [assignments with_assignments].
        rewrite has_row_after_insert, H. reflexivity.
      * intros _. unfold has_row at 1. cbn [assignments with_assignments].
        rewrite has_row_after_insert. apply orb_true_iff. right.
        apply same_slot_true. cbn. auto.
      * intros H. specialize (H eq_refl). unfold has_row in H.
        rewrite existsb_find, F in H. discriminate.
  - exists tx. repeat split; auto. discriminate.
Qed.

Lemma generate_all_spec s pol d cs tx :
  exists tx',
    generate_all s pol d cs tx = Returned tt tx'
    /\ chores tx' = chores tx
    /\ (forall c' d', has_row tx c' d' = true -> has_row tx' c' d' = true)
    /\ (forall c, In c cs -> is_due (rule_of_chore pol c) d = true ->
                  has_row tx' (c_id c) d = true).
Proof.
  revert tx. induction cs as [|c cs IH]; intros tx.
  - exists tx. cbn. repeat split; auto.
  - destruct (generate_one_spec s pol d c tx) as (tx1 & G & Ch1 & Mono1 & Cov1 & _).
    destruct (IH tx1) as (tx2 & G2 & Ch2 & Mono2 & Cov2).
    exists tx2. cbn [generate_all]. unfold tx_bind. rewrite G. split; [exact G2|].
    split; [congruence|]. split; [auto|].
    intros c0 [<-|I] Due; auto.
Qed.

Lemma generate_all_fixed s pol d cs tx :
  (forall c, In c cs -> is_due (rule_of_chore pol c) d = true ->
             has_row tx (c_id c) d = true) ->
  generate_all s pol d cs tx = Returned tt tx.
Proof.
  induction cs as [|c cs IH]; intros Cov; [reflexivity|].
  cbn [generate_all]. unfold tx_bind.
  destruct (generate_one_spec s pol d c tx) as (tx1 & G & _ & _ & _ & Same).
  rewrite G. rewrite (Same (Cov c (or_introl eq_refl))).
  apply IH. intros c0 I. apply Cov. right. exact I.
Qed.

(** The procedure always completes, and a second run changes nothing. *)
Lemma generate_proc_twice s pol d tx :
  exists tx',
    generate_proc s pol d tx = Returned tt tx'
    /\ generate_proc s pol d tx' = Returned tt tx'.
Proof.
  unfold generate_proc.
  destruct (generate_all_spec s pol d (chores tx) tx) as (tx' & G & Ch & _ & Cov).
  exists tx'. split; [exact G|]. rewrite Ch. apply generate_all_fixed. exact Cov.
Qed.

Lemma generate_twice s pol d w :
  db (snd (generate s pol d (snd (generate s pol d w)))) = db (snd (generate s pol d w)).
Proof.
  unfold generate. rewrite (generate_result _ d w).
  destruct (reachable w) eqn:R.
  - destruct (generate_proc_twice s pol d (db w)) as (tx' & G1 & G2).
    rewrite try_commit_result, G1. cbn [snd]. rewrite generate_result. cbn [reachable db].
    rewrite R, try_commit_result, G2. reflexivity.
  - cbn [snd]. rewrite generate_result. reflexivity.
Qed.

(** C1.  Generation is idempotent: for every schema, anchor policy, target
    date and world (hence every chore catalog, and whether or not the
    storage is reachable), calling generate for the date [S n] times, i.e.
    any number of times that is at least one, leaves the same database (and
    so the same set of assignments) as calling it once. *)
Theorem generate_is_idempotent
    (s : Schema) (pol : AnchorPolicy) (target_date : date) (n : nat) (w : World) :
  db (repeat_io (S n) (generate s pol target_date) w)
  = db (repeat_io 1 (generate s pol target_date) w)
  /\ assignments (db (repeat_io (S n) (generate s pol target_date) w))
     = assignments (db (snd (generate s pol target_date w))).
Proof.
  assert (db (repeat_io (S n) (generate s pol target_date) w)
          = db (snd (generate s pol target_date w))) as H.
  { revert w. induction n as [|n IH]; intros w; [reflexivity|].
    change (repeat_io (S (S n)) (generate s pol target_date) w)
      with (repeat_io (S n) (generate s pol target_date) (snd (generate s pol target_date w))).
    rewrite IH. apply generate_twice. }
  split; [exact H|]. rewrite H. reflexivity.
Qed.

(** ** Manual assignment: no lock and no date check *)

Lemma has_row_find tx c d :
  has_row tx c d = true -> exists a, find (same_slot c d) (assignments tx) = Some a.
Proof.
  unfold has_row. rewrite existsb_find.
  destruct (find (same_slot c d) (assignments tx)) as [a|]; [eauto|discriminate].
Qed.

Lemma in_reassigned p due c d l a :
  In a (map (reassign p due c d) l) -> same_slot c d a = true ->
  a_person_id a = p /\ a_due_date a = due.
Proof.
  intros I S. apply in_map_iff in I. destruct I as (b & <- & _).
  rewrite same_slot_reassign in S. unfold reassign. rewrite S. cbn. auto.
Qed.

(** An assign call for a pair that has a row, on reachable storage. *)
Lemma assign_on_existing_row s chore_id person_id d due w :
  reachable w = true ->
  has_row (db w) chore_id d = true ->
  fst (assign_chore s chore_id person_id d due w) = true
  /\ assignments (db (snd (assign_chore s chore_id person_id d due w)))
     = map (reassign (Some person_id) (match due with None => d | Some x => x end) chore_id d)
           (assignments (db w))
  /\ completions (db (snd (assign_chore s chore_id person_id d due w))) = completions (db w)
  /\ (forall a, In a (assignments (db (snd (assign_chore s chore_id person_id d due w)))) ->
                same_slot chore_id d a = true ->
                a_person_id a = Some person_id
                /\ a_due_date a = match due with None => d | Some x => x end).
Proof.
  intros R H. destruct (has_row_find _ _ _ H) as [a0 F].
  rewrite assign_chore_result, R, try_commit_result.
  unfold assign_statements, tx_bind, select_assignment_id. rewrite F. cbn.
  split; [reflexivity|]. split; [reflexivity|]. split; [reflexivity|].
  intros a I S. eapply in_reassigned; eauto.
Qed.

Lemma counted_row_exists tx c d :
  (1 <= count_assignments tx c d)%nat -> has_row tx c d = true.
Proof.
  unfold count_assignments, has_row. intros C. apply existsb_exists.
  destruct (filter (same_slot c d) (assignments tx)) as [|a l] eqn:F; [cbn in C; lia|].
  assert (In a (filter (same_slot c d) (assignments tx))) as I by (rewrite F; left; reflexivity).
  apply filter_In in I. eauto.
Qed.

(** C2.  Starting from a store with at most one assignment per (chore,
    assigned date), every history of generate and assign calls (with the
    storage going down and up in between) ends in a store with at most one
    assignment per (chore, assigned date).  An assign call for a pair that
    has its assignment keeps the ids of all rows and the pair's single row:
    no second row is created.  On reachable storage the call succeeds and
    rewrites that row in place, so that the pair's row then carries the
    requested person and due date (the assigned date when no due date is
    given) while every other row is as it was; on unreachable storage the
    database is unchanged. *)
Theorem assignments_stay_unique_per_chore_and_date
    (s : Schema) (pol : AnchorPolicy) (es : list event) (w : World) :
  unique_assignments (db w) ->
  (forall chore_id d, (count_assignments (db (run s pol es w)) chore_id d <= 1)%nat)
  /\ (forall chore_id person_id d due,
        count_assignments (db (run s pol es w)) chore_id d = 1%nat ->
        let w' := snd (assign_chore s chore_id person_id d due (run s pol es w)) in
        map a_id (assignments (db w')) = map a_id (assignments (db (run s pol es w)))
        /\ count_assignments (db w') chore_id d = 1%nat
        /\ (reachable (run s pol es w) = true ->
              fst (assign_chore s chore_id person_id d due (run s pol es w)) = true
              /\ assignments (db w')
                 = map (reassign (Some person_id)
                          (match due with None => d | Some x => x end) chore_id d)
                       (assignments (db (run s pol es w)))
              /\ (exists a, In a (assignments (db w')) /\ same_slot chore_id d a = true)
              /\ (forall a, In a (assignments (db w')) ->
                            same_slot chore_id d a = true ->
                            a_person_id a = Some person_id
                            /\ a_due_date a = match due with None => d | Some x => x end)
              /\ (forall a, In a (assignments (db (run s pol es w))) ->
                            same_slot chore_id d a = false ->
                            In a (assignments (db w'))))
        /\ (reachable (run s pol es w) = false -> db w' = db (run s pol es w))).
Proof.
  intros U. split; [exact (run_unique s pol es w U)|].
  intros c p d due C w'. split; [|split; [|split]].
  - apply assign_existing_in_place. lia.
  - unfold w'. rewrite assign_existing_counts by lia. exact C.
  - intros R.
    assert (has_row (db (run s pol es w)) c d = true) as H
      by (apply counted_row_exists; lia).
    destruct (assign_on_existing_row s c p d due (run s pol es w) R H)
      as (Ok & Eq & _ & Rows).
    split; [exact Ok|]. split; [exact Eq|]. split; [|split; [exact Rows|]].
    + unfold w'. rewrite Eq. unfold has_row in H. apply existsb_exists in H.
      destruct H as (a & I & S).
      exists (reassign (Some p) (match due with None => d | Some x => x end) c d a).
      split; [apply in_map; exact I|]. rewrite same_slot_reassign. exact S.
    + intros a I S. unfold w'. rewrite Eq. apply in_map_iff. exists a.
      split; [|exact I]. unfold reassign. rewrite S. reflexivity.
  - intros R. unfold w'. rewrite assign_chore_result, R. reflexivity.
Qed.

(** C5 (as amended).  On reachable storage with at most one assignment per
    (chore, date), an assign call for a pair that has an assignment
    succeeds and rewrites the person and the due date of that assignment in
    place, whether or not the assignment has a completion: the completions
    play no part and are left as they are.  There is no lock. *)
Theorem assign_rewrites_existing_assignment_regardless_of_completion
    (s : Schema) (chore_id person_id : Z) (d : date) (due : option date) (w : World) :
  reachable w = true ->
  unique_assignments (db w) ->
  has_row (db w) chore_id d = true ->
  fst (assign_chore s chore_id person_id d due w) = true
  /\ assignments (db (snd (assign_chore s chore_id person_id d due w)))
     = map (reassign (Some person_id) (match due with None => d | Some x => x end) chore_id d)
           (assignments (db w))
  /\ completions (db (snd (assign_chore s chore_id person_id d due w))) = completions (db w)
  /\ (forall a, In a (assignments (db (snd (assign_chore s chore_id person_id d due w)))) ->
                same_slot chore_id d a = true ->
                a_person_id a = Some person_id
                /\ a_due_date a = match due with None => d | Some x => x end).
Proof. intros R _. exact (assign_on_existing_row s chore_id person_id d due w R). Qed.

(** C5, refuted as stated: Timmy's dishes of 2024-01-01 are completed, and
    an assign call for the same chore and date still succeeds and hands the
    assignment to Dad with a new due date. *)
Lemma completed_assignment_is_reassigned :
  completions household_completed = [mkCompletion 1 1 12 (Some "done"%string) None]
  /\ assignments household_completed = [mkAssignment 1 1 (Some 2) new_year_2024 new_year_2024]
  /\ fst (assign_chore strict_schema 1 1 new_year_2024 (Some (new_year_2024 + 3))
            (online household_completed)) = true
  /\ assignments (db (snd (assign_chore strict_schema 1 1 new_year_2024
                             (Some (new_year_2024 + 3)) (online household_completed))))
     = [mkAssignment 1 1 (Some 1) new_year_2024 (new_year_2024 + 3)].
Proof. repeat split; reflexivity. Qed.

Lemma assign_rewrites_existing_assignment_witness :
  reachable (online household_completed) = true
  /\ unique_assignments (db (online household_completed))
  /\ has_row (db (online household_completed)) 1 new_year_2024 = true
  /\ forall a,
       In a (assignments (db (snd (assign_chore strict_schema 1 1 new_year_2024
                                     (Some (new_year_2024 + 3)) (online household_completed))))) ->
       same_slot 1 new_year_2024 a = true ->
       a_person_id a = Some 1 /\ a_due_date a = new_year_2024 + 3.
Proof.
  assert (unique_assignments (db (online household_completed))) as U.
  { intros c d. unfold count_assignments.
    cbn [db online household_completed assignments filter].
    destruct (same_slot c d _); cbn; lia. }
  split; [reflexivity|]. split; [exact U|]. split; [reflexivity|].
  apply (assign_rewrites_existing_assignment_regardless_of_completion
           strict_schema 1 1 new_year_2024 (Some (new_year_2024 + 3))
           (online household_completed) eq_refl U eq_refl).
Defined.

(** C6 (as amended).  assign does not compare the due date with the
    assigned date: on reachable storage with at most one assignment per
    (chore, date) every request succeeds, whatever the order of the two
    dates, and afterwards the pair has an assignment and every assignment of
    the pair carries the requested person and due date (the assigned date
    when no due date was given). *)
Theorem assign_stores_any_due_date
    (s : Schema) (chore_id person_id : Z) (d : date) (due : option date) (w : World) :
  reachable w = true ->
  unique_assignments (db w) ->
  fst (assign_chore s chore_id person_id d due w) = true
  /\ has_row (db (snd (assign_chore s chore_id person_id d due w))) chore_id d = true
  /\ (forall a, In a (assignments (db (snd (assign_chore s chore_id person_id d due w)))) ->
                same_slot chore_id d a = true ->
                a_person_id a = Some person_id
                /\ a_due_date a = match due with None => d | Some x => x end).
Proof.
  intros R _.
  destruct (has_row (db w) chore_id d) eqn:H.
  - destruct (assign_on_existing_row s chore_id person_id d due w R H)
      as (Ok & Eq & _ & Rows).
    split; [exact Ok|]. split; [|exact Rows].
    unfold has_row in *. rewrite Eq.
    apply existsb_exists in H. destruct H as (a & I & S).
    apply existsb_exists. exists (reassign (Some person_id)
      (match due with None => d | Some x => x end) chore_id d a).
    split; [apply in_map; exact I|]. rewrite same_slot_reassign. exact S.
  - rewrite assign_chore_result, R, try_commit_result.
    unfold assign_statements, tx_bind, select_assignment_id.
    pose proof H as H'. unfold has_row in H'. rewrite existsb_find in H'.
    destruct (find (same_slot chore_id d) (assignments (db w))) eqn:F; [discriminate|].
    cbn [option_map]. unfold insert_assignment.
    change (existsb (same_slot chore_id d) (assignments (db w))) with (has_row (db w) chore_id d).
    rewrite H, andb_false_r. cbn [fst snd db assignments with_assignments].
    split; [reflexivity|]. split.
    + unfold has_row. cbn [assignments with_assignments]. rewrite has_row_after_insert.
      apply orb_true_iff. right. apply same_slot_true. cbn. auto.
    + intros a I S. apply in_app_or in I. destruct I as [I|[<-|[]]].
      * unfold has_row in H. assert (existsb (same_slot chore_id d) (assignments (db w)) = true)
          by (apply existsb_exists; eauto). congruence.
      * cbn. auto.
Qed.

(** C6, refuted as stated: a request due on 2023-12-29 for a chore assigned
    on 2024-01-01 is accepted, and the row is created with that due date. *)
Lemma assign_accepts_due_date_before_assigned_date :
  (new_year_2024 - 3 <? new_year_2024) = true
  /\ assign_chore strict_schema 1 2 new_year_2024 (Some (new_year_2024 - 3)) (online household)
     = (true,
        online (mkDb [dad; timmy] [dishes]
                  [mkAssignment 1 1 (Some 2) new_year_2024 (new_year_2024 - 3)] [] [] 2 1 1)).
Proof. split; reflexivity. Qed.

Lemma assign_stores_any_due_date_witness :
  reachable (online household) = true
  /\ unique_assignments (db (online household))
  /\ fst (assign_chore strict_schema 1 2 new_year_2024 (Some (new_year_2024 - 3))
            (online household)) = true.
Proof.
  assert (unique_assignments (db (online household))) as U
    by (intros c d; cbn; lia).
  split; [reflexivity|]. split; [exact U|].
  apply (assign_stores_any_due_date strict_schema 1 2 new_year_2024
           (Some (new_year_2024 - 3)) (online household) eq_refl U).
Defined.

(** ** Completion and review: the checks are the storage's, or the page's *)

Lemma mark_chore_complete_result s now a mins notes data name w :
  mark_chore_complete s now a mins notes data name w =
  if reachable w
  then try_commit "Error marking chore complete: "
         (insert_completion s a mins notes (option_map fst (saved_photo now data name)))
         (db w)
         (match saved_photo now data name with
          | Some (f, bytes) => snd (write_file f bytes w)
          | None => w
          end)
  else (false, mkWorld false (db w) (chore_photos w) (page w ++ connection_error)).
Proof.
  unfold mark_chore_complete, io_bind. destruct (reachable w) eqn:R.
  - rewrite get_db_connection_up by exact R. unfold saved_photo.
    destruct data as [[|b data]|]; try reflexivity.
    destruct name as [[|ch name]|]; reflexivity.
  - rewrite get_db_connection_down by exact R. reflexivity.
Qed.

Lemma add_parental_review_result s c r ok notes w :
  add_parental_review s c r ok notes w =
  if reachable w
  then try_commit "Error adding review: " (insert_review s c r ok notes) (db w) w
  else (false, mkWorld false (db w) (chore_photos w) (page w ++ connection_error)).
Proof.
  unfold add_parental_review, io_bind. destruct (reachable w) eqn:R.
  - rewrite get_db_connection_up by exact R. reflexivity.
  - rewrite get_db_connection_down by exact R. reflexivity.
Qed.





(** A photo sent with a rejected completion stays in the photo directory:
    the file is written before the INSERT runs. *)
Example rejected_completion_keeps_its_photo :
  mark_chore_complete strict_schema "20240101_180000" 1 12 None
    (Some [Byte.x01]) (Some "sink.jpg"%string) (online household_completed)
  = (false,
     mkWorld true household_completed
       [("20240101_180000_sink.jpg"%string, [Byte.x01])]
       [StError "Error marking chore complete: " (DuplicateEntry "completions")]).
Proof. reflexivity. Qed.

Lemma in_insert_by_name x p l : In x (insert_by_name p l) <-> x = p \/ In x l.
Proof.
  induction l as [|q l IH]; cbn; [intuition congruence|].
  destruct (String.leb (p_name p) (p_name q)); cbn; [intuition congruence|].
  rewrite IH. intuition congruence.
Qed.

Lemma in_order_by_name x l : In x (order_by_name l) <-> In x l.
Proof.
  unfold order_by_name. induction l as [|p l IH]; cbn; [tauto|].
  rewrite in_insert_by_name, IH. intuition congruence.
Qed.

Lemma get_all_people_up w :
  reachable w = true -> get_all_people w = (order_by_name (people (db w)), w).
Proof.
  intros R. unfold get_all_people, io_bind. rewrite get_db_connection_up by exact R.
  reflexivity.
Qed.

(** What the submit button of the review form does, spelled out. *)
Lemma submit_review_cases s reviewer completion_id approved notes w :
  (fst (submit_review s reviewer completion_id approved notes w) = false
   /\ db (snd (submit_review s reviewer completion_id approved notes w)) = db w)
  \/ (fst (submit_review s reviewer completion_id approved notes w) = true
      /\ exists p,
           In p (people (db w)) /\ is_parent_name p = true /\ reviewer = Some (p_name p)
           /\ db (snd (submit_review s reviewer completion_id approved notes w))
              = with_reviews (db w)
                  (parental_reviews (db w)
                   ++ [mkReview (next_review_id (db w)) completion_id (p_id p) approved
                         (Some notes)])
                  (next_review_id (db w) + 1)).
Proof.
  unfold submit_review, io_bind.
  destruct (reachable w) eqn:R.
  2:{ rewrite get_db_connection_down by exact R. left. split; reflexivity. }
  rewrite get_db_connection_up by exact R.
  rewrite get_all_people_up by exact R.
  destruct reviewer as [name|]; [|left; split; reflexivity].
  destruct (find (fun p => String.eqb (p_name p) name)
              (filter is_parent_name (order_by_name (people (db w))))) as [p|] eqn:F;
    cbn [option_map]; [|left; split; reflexivity].
  apply find_some in F. destruct F as [I En]. apply String.eqb_eq in En.
  apply filter_In in I. destruct I as [I Par]. apply (proj1 (in_order_by_name _ _)) in I.
  destruct (python_truthy (p_id p)); [|left; split; reflexivity].
  rewrite add_parental_review_result, R, try_commit_result.
  unfold insert_review.
  destruct (uq_review_completion s && _); [left; split; reflexivity|].
  right. split; [reflexivity|]. exists p. cbn [fst snd show io_ret db].
  repeat split; auto. congruence.
Qed.

(** C4 (as amended).  add_parental_review makes no role check: on reachable
    storage it records the review under whatever reviewer id it is given,
    unless the storage rejects a second review of the completion; when it
    returns [False] the database is unchanged.  The restriction lies in the
    pages: the review page is offered only to the session role parent, and
    a review submitted through its form is recorded under the id of the
    selected person, who is in the roster and named Dad or Mom; when the
    form returns [False], and so whenever no such person is selected, no
    review is recorded and the database is unchanged. *)
Theorem review_is_restricted_by_the_page_not_by_the_function
    (s : Schema) (completion_id : Z) (approved : bool) (w : World) :
  (forall reviewer_person_id review_notes,
      reachable w = true ->
      uq_review_completion s && has_review (db w) completion_id = false ->
      fst (add_parental_review s completion_id reviewer_person_id approved review_notes w) = true
      /\ parental_reviews
           (db (snd (add_parental_review s completion_id reviewer_person_id approved
                       review_notes w)))
         = parental_reviews (db w)
           ++ [mkReview (next_review_id (db w)) completion_id reviewer_person_id approved
                 review_notes])
  /\ (forall reviewer_person_id review_notes,
        fst (add_parental_review s completion_id reviewer_person_id approved review_notes w)
        = false ->
        db (snd (add_parental_review s completion_id reviewer_person_id approved
                   review_notes w)) = db w)
  /\ (forall reviewer review_notes,
        fst (submit_review s reviewer completion_id approved review_notes w) = true ->
        exists p,
          In p (people (db w)) /\ is_parent_name p = true /\ reviewer = Some (p_name p)
          /\ parental_reviews
               (db (snd (submit_review s reviewer completion_id approved review_notes w)))
             = parental_reviews (db w)
               ++ [mkReview (next_review_id (db w)) completion_id (p_id p) approved
                     (Some review_notes)]
          /\ completions
               (db (snd (submit_review s reviewer completion_id approved review_notes w)))
             = completions (db w))
  /\ (forall reviewer review_notes,
        fst (submit_review s reviewer completion_id approved review_notes w) = false ->
        db (snd (submit_review s reviewer completion_id approved review_notes w)) = db w)
  /\ (forall reviewer review_notes,
        (forall p, In p (people (db w)) -> is_parent_name p = true ->
                   reviewer <> Some (p_name p)) ->
        fst (submit_review s reviewer completion_id approved review_notes w) = false
        /\ db (snd (submit_review s reviewer completion_id approved review_notes w)) = db w)
  /\ (forall user_role,
        In "Parental Review"%string (pages user_role) <-> user_role = "parent"%string).
Proof.
  split; [|split; [|split; [|split; [|split]]]].
  - intros r notes R U. rewrite add_parental_review_result, R, try_commit_result.
    unfold insert_review.
    change (existsb (fun r => pr_completion_id r =? completion_id) (parental_reviews (db w)))
      with (has_review (db w) completion_id).
    rewrite U. split; reflexivity.
  - intros r notes. rewrite add_parental_review_result.
    destruct (reachable w); [|reflexivity].
    rewrite try_commit_result.
    destruct (insert_review s completion_id r approved notes (db w)); cbn;
      [discriminate|reflexivity].
  - intros reviewer notes T.
    destruct (submit_review_cases s reviewer completion_id approved notes w)
      as [[F _]|(_ & p & I & Par & Er & D)]; [congruence|].
    exists p. rewrite D. cbn [parental_reviews completions with_reviews]. auto.
  - intros reviewer notes F.
    destruct (submit_review_cases s reviewer completion_id approved notes w)
      as [[_ D]|(T & _)]; [exact D|congruence].
  - intros reviewer notes Nobody.
    destruct (submit_review_cases s reviewer completion_id approved notes w)
      as [[F D]|(_ & p & I & Par & Er & _)]; [auto|].
    exfalso. exact (Nobody p I Par Er).
  - intros role. unfold pages. destruct (String.eqb role "parent") eqn:E.
    + apply String.eqb_eq in E. subst. cbn. intuition.
    + apply String.eqb_neq in E. cbn. split; [|congruence].
      intros [H|[H|[]]]; discriminate.
Qed.

(** C4, refuted as stated: Timmy is not named Dad or Mom and the session
    role child is not offered the review page, yet a review request under
    his id is recorded and the call returns [True]. *)
Lemma review_by_a_child_is_recorded :
  In timmy (people household_completed)
  /\ is_parent_name timmy = false
  /\ pages "child" = ["My Chores"; "My Progress"]%string
  /\ add_parental_review strict_schema 1 (p_id timmy) true None (online household_completed)
     = (true,
        online (mkDb [dad; timmy] [dishes]
                  [mkAssignment 1 1 (Some 2) new_year_2024 new_year_2024]
                  [mkCompletion 1 1 12 (Some "done"%string) None]
                  [mkReview 1 1 2 true None] 2 2 2)).
Proof. split; [cbn; auto|]. repeat split; reflexivity. Qed.

Lemma review_through_the_page_witness :
  fst (submit_review strict_schema (Some "Dad"%string) 1 true "well done"
         (online household_completed)) = true
  /\ (exists p,
        In p (people (db (online household_completed))) /\ is_parent_name p = true
        /\ Some "Dad"%string = Some (p_name p)
        /\ parental_reviews
             (db (snd (submit_review strict_schema (Some "Dad"%string) 1 true "well done"
                         (online household_completed))))
           = parental_reviews (db (online household_completed))
             ++ [mkReview (next_review_id (db (online household_completed))) 1 (p_id p) true
                   (Some "well done"%string)]
        /\ completions
             (db (snd (submit_review strict_schema (Some "Dad"%string) 1 true "well done"
                         (online household_completed))))
           = completions (db (online household_completed)))
  /\ fst (submit_review strict_schema (Some "Timmy"%string) 1 true "I did well"
            (online household_completed)) = false
  /\ db (snd (submit_review strict_schema (Some "Timmy"%string) 1 true "I did well"
                (online household_completed)))
     = db (online household_completed).
Proof.
  pose proof (review_is_restricted_by_the_page_not_by_the_function strict_schema 1 true
                (online household_completed)) as (_ & _ & Recorded & Unchanged & _).
  split; [reflexivity|]. split; [apply Recorded; reflexivity|].
  split; [reflexivity|]. apply Unchanged. reflexivity.
Defined.

(** ** What the caller of a writing operation learns *)


Lemma try_commit_cases label body conn w :
  (fst (try_commit label body conn w) = false ->
     db (snd (try_commit label body conn w)) = db w
     /\ exists e, page (snd (try_commit label body conn w)) = page w ++ [StError label e])
  /\ (fst (try_commit label body conn w) = true ->
        page (snd (try_commit label body conn w)) = page w).
Proof.
  rewrite try_commit_result. destruct (body conn) as [u tx'|e]; cbn; split; try discriminate; eauto.
Qed.





Lemma assignments_stay_unique_witness :
  unique_assignments (db (online household))
  /\ (forall chore_id d,
        le (count_assignments
              (db (run strict_schema no_anchor
                     [Generate new_year_2024; Assign 1 2 new_year_2024 None; Storage false;
                      Assign 1 1 new_year_2024 None; Storage true; Generate new_year_2024;
                      Assign 1 1 new_year_2024 (Some (new_year_2024 + 1))]
                     (online household))) chore_id d) 1%nat)
  /\ (forall a,
        In a (assignments
                (db (snd (assign_chore strict_schema 1 2 new_year_2024
                            (Some (new_year_2024 + 2))
                            (run strict_schema no_anchor
                               [Generate new_year_2024; Assign 1 2 new_year_2024 None;
                                Storage false; Assign 1 1 new_year_2024 None; Storage true;
                                Generate new_year_2024;
                                Assign 1 1 new_year_2024 (Some (new_year_2024 + 1))]
                               (online household)))))) ->
        same_slot 1 new_year_2024 a = true ->
        a_person_id a = Some 2 /\ a_due_date a = new_year_2024 + 2).
Proof.
  assert (unique_assignments (db (online household))) as U
    by (intros c d; cbn; lia).
  split; [exact U|].
  pose proof (assignments_stay_unique_per_chore_and_date strict_schema no_anchor
                [Generate new_year_2024; Assign 1 2 new_year_2024 None; Storage false;
                 Assign 1 1 new_year_2024 None; Storage true; Generate new_year_2024;
                 Assign 1 1 new_year_2024 (Some (new_year_2024 + 1))]
                (online household) U) as [Unique InPlace].
  split; [exact Unique|].
  destruct (InPlace 1 2 new_year_2024 (Some (new_year_2024 + 2)) eq_refl)
    as (_ & _ & Up & _).
  destruct (Up eq_refl) as (_ & _ & _ & Rows & _). exact Rows.
Defined.

Example a_history_of_the_household :
  assignments
    (db (run strict_schema no_anchor
           [Generate new_year_2024; Assign 1 2 new_year_2024 None; Storage false;
            Assign 1 1 new_year_2024 None; Storage true; Generate new_year_2024;
            Assign 1 1 new_year_2024 (Some (new_year_2024 + 1))]
           (online household)))
  = [mkAssignment 1 1 (Some 1) new_year_2024 (new_year_2024 + 1)].
Proof. reflexivity. Qed.

(** ** The individual report *)

Lemma in_insert_date x d l : In x (insert_date d l) <-> x = d \/ In x l.
Proof.
  induction l as [|y l IH]; cbn; [intuition congruence|].
  destruct (d <? y); cbn; [intuition congruence|].
  destruct (d =? y) eqn:E; cbn.
  - apply Z.eqb_eq in E. subst. intuition congruence.
  - rewrite IH. intuition congruence.
Qed.

Lemma in_group_dates d rows :
  In d (group_dates rows) <->
  exists r, In r rows /\ a_assigned_date (jr_assignment r) = d.
Proof.
  unfold group_dates. induction rows as [|r rows IH]; cbn.
  - split; [tauto|]. intros (r & [] & _).
  - rewrite in_insert_date, IH. split.
    + intros [->|(r' & I & E)]; eauto.
    + intros (r' & [<-|I] & E); eauto.
Qed.

Lemma count_distinct_nonneg l : 0 <= count_distinct l.
Proof. unfold count_distinct. lia. Qed.

Lemma count_distinct_positive x l : In x l -> 1 <= count_distinct l.
Proof.
  intros I. unfold count_distinct. apply (nodup_In Z.eq_dec) in I.
  destruct (nodup Z.eq_dec l); [destruct I|]. cbn [List.length]. lia.
Qed.

(** The query's rate column, for a group that has an assignment. *)
Lemma sql_rate_is_round_rate completed assigned :
  0 <= completed -> 1 <= assigned ->
  sql_round1 (sql_div (sql_times_100 completed) assigned)
  = Some (round_rate completed assigned).
Proof.
  intros C A. unfold sql_div, sql_times_100, sql_round1, round_rate. cbn [fst snd].
  destruct (assigned =? 0) eqn:E; [apply Z.eqb_eq in E; lia|].
  f_equal. rewrite Z.mul_1_l.
  destruct (Z.eq_dec completed 0) as [->|N].
  - rewrite Z.mul_0_l. cbn [Z.sgn]. rewrite Z.mul_0_r, Z.add_0_l.
    rewrite Z.div_small by lia. reflexivity.
  - rewrite Z.sgn_pos, Z.abs_eq by lia. rewrite Z.mul_1_l. f_equal. lia.
Qed.

(** [round_rate] is the nearest number of tenths. *)
Lemma round_rate_nearest completed assigned :
  1 <= assigned ->
  2 * Z.abs (round_rate completed assigned * assigned - 1000 * completed) <= assigned.
Proof.
  intros A. unfold round_rate.
  pose proof (Z.div_mod (2000 * completed + assigned) (2 * assigned) ltac:(lia)) as D.
  pose proof (Z.mod_pos_bound (2000 * completed + assigned) (2 * assigned) ltac:(lia)) as B.
  set (q := (2000 * completed + assigned) / (2 * assigned)) in *.
  set (r := (2000 * completed + assigned) mod (2 * assigned)) in *.
  nia.
Qed.

Lemma report_rows_have_assignments tx person_id start_date end_date row :
  In row (individual_report_query tx person_id start_date end_date) ->
  1 <= rr_assigned row /\ 0 <= rr_completed row
  /\ rr_completion_rate row
     = sql_round1 (sql_div (sql_times_100 (rr_completed row)) (rr_assigned row)).
Proof.
  unfold individual_report_query. intros I.
  apply in_map_iff in I. destruct I as (d & <- & I).
  apply in_group_dates in I. destruct I as (r & I & E).
  cbn [report_group rr_assigned rr_completed rr_completion_rate].
  split; [|split; [apply count_distinct_nonneg|reflexivity]].
  apply (count_distinct_positive (a_id (jr_assignment r))).
  apply in_map_iff. exists r. split; [reflexivity|].
  apply filter_In. split; [exact I|]. apply Z.eqb_eq. exact E.
Qed.

(** C7.  Every row of the individual report has at least one assignment,
    and its completion_rate is [round(100 * completed / assigned, 1)]: the
    number of tenths of a percent nearest to [100 * completed / assigned]
    (within one twentieth of a percent of it).  A row whose assigned count is
    0 does not occur, so "the rate is 0 when the assigned count is 0" holds
    of every row as well.  The report is a total function of the database:
    the query's division yields NULL on a zero divisor instead of raising,
    and no row's rate is NULL. *)
Theorem individual_report_rate_is_rounded_percentage
    (person_id : Z) (start_date end_date : date) (w : World) (row : report_row) :
  In row (fst (get_individual_report person_id start_date end_date w)) ->
  (rr_assigned row = 0 -> rr_completion_rate row = Some 0)
  /\ (rr_assigned row <> 0 ->
        rr_completion_rate row = Some (round_rate (rr_completed row) (rr_assigned row))
        /\ 2 * Z.abs (round_rate (rr_completed row) (rr_assigned row) * rr_assigned row
                      - 1000 * rr_completed row) <= rr_assigned row)
  /\ 1 <= rr_assigned row
  /\ rr_completion_rate row <> None.
Proof.
  unfold get_individual_report, io_bind. destruct (reachable w) eqn:R.
  2:{ rewrite get_db_connection_down by exact R. cbn. tauto. }
  rewrite get_db_connection_up by exact R. cbn [io_ret fst]. intros I.
  apply report_rows_have_assignments in I. destruct I as (A & C & Rate).
  rewrite Rate, sql_rate_is_round_rate by lia.
  split; [lia|]. split; [|split; [exact A|discriminate]].
  intros _. split; [reflexivity|]. apply round_rate_nearest. exact A.
Qed.

Example report_of_the_busy_household :
  fst (get_individual_report 2 new_year_2024 (new_year_2024 + 6) (online household_busy))
  = [mkReportRow new_year_2024 3 1 (Some 333) 50 12]
  /\ fst (get_individual_report 1 new_year_2024 (new_year_2024 + 6) (online household_busy))
     = [mkReportRow (new_year_2024 + 1) 1 0 (Some 0) 15 0]
  /\ fst (get_individual_report 2 (new_year_2024 + 1) (new_year_2024 + 6)
            (online household_busy)) = [].
Proof. repeat split; reflexivity. Qed.

Lemma individual_report_rate_witness :
  In (mkReportRow new_year_2024 3 1 (Some 333) 50 12)
     (fst (get_individual_report 2 new_year_2024 (new_year_2024 + 6) (online household_busy)))
  /\ (rr_assigned (mkReportRow new_year_2024 3 1 (Some 333) 50 12) <> 0 ->
        rr_completion_rate (mkReportRow new_year_2024 3 1 (Some 333) 50 12)
        = Some (round_rate 1 3)
        /\ 2 * Z.abs (round_rate 1 3 * 3 - 1000 * 1) <= 3).
Proof.
  assert (In (mkReportRow new_year_2024 3 1 (Some 333) 50 12)
            (fst (get_individual_report 2 new_year_2024 (new_year_2024 + 6)
                    (online household_busy)))) as I
    by (left; reflexivity).
  split; [exact I|].
  apply (individual_report_rate_is_rounded_percentage 2 new_year_2024 (new_year_2024 + 6)
           (online household_busy) _ I).
Defined.

(** ** Specific weekdays: from the day box to the rule *)

Lemma split_comma_free t : comma_free t = true -> split_comma t = [t].
Proof.
  induction t as [|ch t IH]; [reflexivity|]. cbn. intros H.
  apply andb_true_iff in H. destruct H as [N F].
  apply negb_true_iff in N. rewrite N, (IH F). reflexivity.
Qed.

Lemma split_comma_token t rest :
  comma_free t = true ->
  split_comma (t ++ "," ++ rest) = t :: split_comma rest.
Proof.
  induction t as [|ch t IH]; intros H.
  - reflexivity.
  - cbn in H. apply andb_true_iff in H. destruct H as [N F].
    apply negb_true_iff in N. cbn [append split_comma]. rewrite N.
    cbn [append] in IH. rewrite (IH F). reflexivity.
Qed.

(** [','.join(l).split(',')] gives [l] back, for a non-empty list of
    comma-free strings. *)
Lemma split_join x l :
  Forall (fun t => comma_free t = true) (x :: l) ->
  split_comma (join "," (x :: l)) = x :: l.
Proof.
  revert x. induction l as [|y l IH]; intros x H.
  - cbn. apply split_comma_free. inversion H. assumption.
  - inversion H as [|? ? Hx Hl]. subst.
    change (join "," (x :: y :: l)) with (x ++ "," ++ join "," (y :: l))%string.
    rewrite split_comma_token by exact Hx. rewrite (IH y Hl). reflexivity.
Qed.

Lemma day_code_comma_free w : comma_free (day_code w) = true.
Proof. destruct w; reflexivity. Qed.

Lemma weekday_of_day_code w : weekday_of_code (day_code w) = Some w.
Proof. destruct w; reflexivity. Qed.

Lemma join_day_codes_nonempty w ws :
  exists ch rest, join "," (map day_code (w :: ws)) = String ch rest.
Proof.
  cbn [map join]. destruct (map day_code ws); destruct w; cbn; eauto.
Qed.

Lemma non_null_map_some {A} (l : list A) : non_null (map Some l) = l.
Proof. unfold non_null. induction l as [|x l IH]; cbn; [|rewrite IH]; reflexivity. Qed.

(** What the page stores for the chosen days is read back as those days. *)
Lemma stored_days_of_joined_codes c days :
  c_recurrence_days c = Some (join "," (map day_code days)) ->
  stored_days c = days.
Proof.
  intros E. unfold stored_days, stored_day_codes. rewrite E.
  destruct days as [|w ws]; [reflexivity|].
  destruct (join_day_codes_nonempty w ws) as (ch & rest & J).
  rewrite J, <- J.
  change (map day_code (w :: ws)) with (day_code w :: map day_code ws).
  rewrite split_join.
  - change (day_code w :: map day_code ws) with (map day_code (w :: ws)).
    rewrite map_map.
    rewrite (map_ext _ Some) by (intros; apply weekday_of_day_code).
    apply non_null_map_some.
  - change (day_code w :: map day_code ws) with (map day_code (w :: ws)).
    apply Forall_forall. intros t I. apply in_map_iff in I.
    destruct I as (w' & <- & _). apply day_code_comma_free.
Qed.

Lemma weekday_eqb_eq a b : weekday_eqb a b = true <-> a = b.
Proof. destruct a, b; cbn; split; congruence. Qed.

Lemma is_due_specific_days days d :
  is_due (specific_days days) d = true <-> In (weekday_of d) days.
Proof.
  cbn [is_due]. rewrite existsb_exists. split.
  - intros (w & I & E). apply weekday_eqb_eq in E. subst. exact I.
  - intros I. exists (weekday_of d). split; [exact I|]. apply weekday_eqb_eq. reflexivity.
Qed.

Lemma update_chore_recurring_up chore_id is_recurring rtype rdays w :
  reachable w = true ->
  update_chore_recurring chore_id is_recurring rtype rdays w
  = (true,
     mkWorld true
       (with_chores (db w)
          (map (fun c => if c_id c =? chore_id
                         then mkChore (c_id c) (c_room c) (c_task c) (c_estimated_time c)
                                is_recurring rtype rdays
                         else c)
               (chores (db w))))
       (chore_photos w) (page w)).
Proof.
  intros R. unfold update_chore_recurring, io_bind.
  rewrite get_db_connection_up by exact R. rewrite try_commit_result.
  unfold update_chore. rewrite R. reflexivity.
Qed.

(** C9.  A specific_days rule is due on a date exactly when the date's
    weekday is one of the rule's days, for every day set and every date; a
    rule with no day is due on no date.  Such a rule is what the setup page
    stores: saving a chore as "specific_days" with any choice of days, the
    empty choice included, succeeds on reachable storage, and the chore's
    row then stands for the rule with exactly the chosen days. *)
Theorem specific_days_is_due_exactly_on_its_days
    (pol : AnchorPolicy) (days : list Weekday) (target_date : date) :
  (is_due (specific_days days) target_date = true <-> In (weekday_of target_date) days)
  /\ is_due (specific_days []) target_date = false
  /\ (forall chore_id w,
        reachable w = true ->
        fst (recurring_setup_save chore_id true "specific_days" days w) = true
        /\ forall c,
             In c (chores (db (snd (recurring_setup_save chore_id true "specific_days"
                                      days w)))) ->
             c_id c = chore_id ->
             rule_of_chore pol c = specific_days days
             /\ (is_due (rule_of_chore pol c) target_date = true
                 <-> In (weekday_of target_date) days)).
Proof.
  split; [apply is_due_specific_days|]. split; [reflexivity|].
  intros chore_id w R. unfold recurring_setup_save, io_bind.
  cbn [String.eqb Ascii.eqb Bool.eqb andb].
  change (String.eqb "specific_days" "specific_days") with true. cbv iota.
  rewrite update_chore_recurring_up by exact R. cbn [fst snd db chores with_chores].
  split; [reflexivity|].
  intros c I Id. apply in_map_iff in I. destruct I as (c0 & E & _).
  assert (rule_of_chore pol c = specific_days days) as Rule.
  { destruct (c_id c0 =? chore_id) eqn:Q.
    - subst c. unfold rule_of_chore. cbn [c_is_recurring c_recurrence_type].
      change (String.eqb "specific_days" "daily") with false.
      change (String.eqb "specific_days" "weekly") with false.
      change (String.eqb "specific_days" "monthly") with false.
      change (String.eqb "specific_days" "weekdays") with false.
      change (String.eqb "specific_days" "specific_days") with true. cbv iota.
      f_equal. apply stored_days_of_joined_codes. reflexivity.
    - subst c. apply Z.eqb_neq in Q. contradiction. }
  split; [exact Rule|]. rewrite Rule. apply is_due_specific_days.
Qed.

(** The spec's example: days Tuesday and Thursday, over the two weeks from
    Monday 2024-01-01. *)
Example tuesday_thursday_over_two_weeks :
  filter (is_due (specific_days [Tue; Thu])) (two_weeks_from new_year_2024)
  = [new_year_2024 + 1; new_year_2024 + 3; new_year_2024 + 8; new_year_2024 + 10]
  /\ filter (is_due (specific_days [])) (two_weeks_from new_year_2024) = [].
Proof. split; reflexivity. Qed.

Example setup_page_stores_the_days :
  recurring_setup_save 1 true "specific_days" [Tue; Thu] (online household)
  = (true,
     mkWorld true
       (mkDb [dad; timmy]
          [mkChore 1 "Kitchen" "Dishes" 15 true (Some "specific_days"%string)
             (Some "T,TH"%string)] [] [] [] 1 1 1)
       [] [StSuccess "Updated!"])
  /\ recurring_setup_save 1 true "specific_days" [] (online household)
     = (true,
        mkWorld true
          (mkDb [dad; timmy]
             [mkChore 1 "Kitchen" "Dishes" 15 true (Some "specific_days"%string)
                (Some ""%string)] [] [] [] 1 1 1)
          [] [StSuccess "Updated!"]).
Proof. split; reflexivity. Qed.

(** ** Copy from yesterday *)

Lemma copied_rows_dates next target rows a :
  In a (copied_rows next target rows) ->
  a_assigned_date a = target /\ a_due_date a = target.
Proof.
  revert next. induction rows as [|r rows IH]; intros next; cbn; [tauto|].
  intros [<-|I]; [cbn; auto|eauto].
Qed.

Lemma copied_rows_fields next target rows :
  map (fun a => (a_chore_id a, a_person_id a, a_assigned_date a, a_due_date a))
      (copied_rows next target rows)
  = map (fun a => (a_chore_id a, a_person_id a, target, target)) rows.
Proof.
  revert next. induction rows as [|r rows IH]; intros next; [reflexivity|].
  cbn. f_equal. apply IH.
Qed.

Lemma filter_keeps_all {A} (f : A -> bool) l :
  (forall x, In x l -> f x = true) -> filter f l = l.
Proof.
  induction l as [|x l IH]; intros H; [reflexivity|]. cbn.
  rewrite (H x (or_introl eq_refl)). f_equal. apply IH. intros y I. apply H. right. exact I.
Qed.

Lemma filter_drops_all {A} (f : A -> bool) l :
  (forall x, In x l -> f x = false) -> filter f l = [].
Proof.
  induction l as [|x l IH]; intros H; [reflexivity|]. cbn.
  rewrite (H x (or_introl eq_refl)). apply IH. intros y I. apply H. right. exact I.
Qed.

Lemma yesterday_after_delete d l :
  filter (fun a => a_assigned_date a =? d - 1) (filter (fun a => negb (a_assigned_date a =? d)) l)
  = filter (fun a => a_assigned_date a =? d - 1) l.
Proof.
  induction l as [|a l IH]; [reflexivity|]. cbn.
  destruct (a_assigned_date a =? d) eqn:E; cbn.
  - apply Z.eqb_eq in E. replace (a_assigned_date a =? d - 1) with false
      by (symmetry; apply Z.eqb_neq; lia). exact IH.
  - destruct (a_assigned_date a =? d - 1); [f_equal|]; exact IH.
Qed.

(** Rows of one date that are unique per (chore, date) have distinct chores. *)
Lemma unique_rows_of_a_date_have_distinct_chores l p :
  (forall c, (List.length (filter (same_slot c p) l) <= 1)%nat) ->
  NoDup (map a_chore_id (filter (fun a => a_assigned_date a =? p) l)).
Proof.
  induction l as [|a l IH]; intros U; [constructor|].
  assert (forall c, (List.length (filter (same_slot c p) l) <= 1)%nat) as U'.
  { intros c. specialize (U c). cbn in U. destruct (same_slot c p a); cbn in U; lia. }
  cbn [filter]. destruct (a_assigned_date a =? p) eqn:E; [|auto].
  cbn [map]. constructor; [|auto].
  intros I. apply in_map_iff in I. destruct I as (b & Eb & Ib).
  apply filter_In in Ib. destruct Ib as [Ib Db].
  specialize (U (a_chore_id a)). cbn in U.
  assert (same_slot (a_chore_id a) p a = true) as Sa
    by (apply same_slot_true; split; [reflexivity|apply Z.eqb_eq; exact E]).
  assert (same_slot (a_chore_id a) p b = true) as Sb
    by (apply same_slot_true; split; [exact Eb|apply Z.eqb_eq; exact Db]).
  rewrite Sa in U. cbn in U.
  assert (In b (filter (same_slot (a_chore_id a) p) l)) as Ib'
    by (apply filter_In; auto).
  destruct (filter (same_slot (a_chore_id a) p) l); [destruct Ib'|cbn in U; lia].
Qed.

(** The INSERT ... SELECT adds exactly the copies, when no uniqueness
    constraint stands in the way. *)
Lemma insert_copies_result s target rows tx :
  uq_assignment_chore_date s = false
  \/ ((forall a, In a rows -> has_row tx (a_chore_id a) target = false)
      /\ NoDup (map a_chore_id rows)) ->
  insert_copies s target rows tx
  = Returned tt
      (with_assignments tx
         (assignments tx ++ copied_rows (next_assignment_id tx) target rows)
         (next_assignment_id tx + Z.of_nat (List.length rows))).
Proof.
  revert tx. induction rows as [|a rows IH]; intros tx H.
  - cbn. unfold tx_ret, with_assignments. rewrite app_nil_r, Z.add_0_r.
    destruct tx; reflexivity.
  - cbn [insert_copies]. unfold tx_bind, insert_assignment.
    change (existsb (same_slot (a_chore_id a) target) (assignments tx))
      with (has_row tx (a_chore_id a) target).
    assert (uq_assignment_chore_date s && has_row tx (a_chore_id a) target = false) as Free.
    { destruct H as [->|[Hf _]]; [reflexivity|].
      rewrite (Hf a (or_introl eq_refl)). apply andb_false_r. }
    rewrite Free. rewrite IH.
    + replace (next_assignment_id tx + Z.of_nat (List.length (a :: rows)))
        with (next_assignment_id tx + 1 + Z.of_nat (List.length rows))
        by (cbn [List.length]; lia).
      unfold with_assignments. cbn. rewrite <- app_assoc. reflexivity.
    + destruct H as [U|[Hf Hn]]; [left; exact U|right].
      inversion Hn as [|? ? Hnotin Hn']. subst. split; [|exact Hn'].
      intros b Ib. unfold has_row. cbn [assignments with_assignments].
      rewrite has_row_after_insert, (Hf b (or_intror Ib)). cbn [orb].
      unfold same_slot. cbn. apply andb_false_iff. left. apply Z.eqb_neq.
      intros Eq. apply Hnotin. apply in_map_iff. exists b. split; [congruence|exact Ib].
Qed.

Lemma copy_from_yesterday_result s d w :
  reachable w = true ->
  (uq_assignment_chore_date s = true -> unique_assignments (db w)) ->
  copy_from_yesterday s d w
  = (None,
     mkWorld true
       (with_assignments (db w)
          (filter (off_date d) (assignments (db w))
           ++ copied_rows (next_assignment_id (db w)) d
                (filter (on_date (d - 1)) (assignments (db w))))
          (next_assignment_id (db w)
           + Z.of_nat (List.length (filter (on_date (d - 1)) (assignments (db w))))))
       (chore_photos w)
       (page w ++ [StSuccess ("Copied "
                     ++ NilZero.string_of_int
                          (Z.to_int (Z.of_nat (List.length
                                                 (filter (on_date (d - 1)) (assignments (db w))))))
                     ++ " assignments!")])).
Proof.
  intros R U. unfold copy_from_yesterday, io_bind.
  rewrite get_db_connection_up by exact R.
  unfold tx_bind at 1. unfold delete_assignments_on, insert_select_assignments, tx_bind.
  cbn [assignments with_assignments].
  rewrite yesterday_after_delete.
  rewrite insert_copies_result.
  - unfold tx_ret, commit, show, io_ret, on_date, off_date. cbn. rewrite R. reflexivity.
  - destruct (uq_assignment_chore_date s) eqn:Q; [right|left; reflexivity].
    split.
    + intros a _. unfold has_row. cbn [assignments with_assignments].
      apply not_true_is_false. intros H. apply existsb_exists in H.
      destruct H as (b & Ib & Sb). apply filter_In in Ib. destruct Ib as [_ Nb].
      apply same_slot_true in Sb. destruct Sb as [_ Db].
      apply negb_true_iff, Z.eqb_neq in Nb. contradiction.
    + apply unique_rows_of_a_date_have_distinct_chores. intros c. apply (U eq_refl).
Qed.

(** C10.  On reachable storage that is consistent with its schema, Copy
    from Yesterday runs to its end and replaces the target date's
    assignments: afterwards the assignments of the target date are exactly
    the copies of the previous day's assignments (same chore and person, one
    copy each, assigned and due on the target date), whatever was there
    before and whether or not it had completions; the assignments of every
    other date are as they were; the completions are not touched. *)
Theorem copy_from_yesterday_replaces_the_target_date
    (s : Schema) (selected_date : date) (w : World) :
  reachable w = true ->
  (uq_assignment_chore_date s = true -> unique_assignments (db w)) ->
  fst (copy_from_yesterday s selected_date w) = None
  /\ filter (on_date selected_date)
       (assignments (db (snd (copy_from_yesterday s selected_date w))))
     = copied_rows (next_assignment_id (db w)) selected_date
         (filter (on_date (selected_date - 1)) (assignments (db w)))
  /\ filter (off_date selected_date)
       (assignments (db (snd (copy_from_yesterday s selected_date w))))
     = filter (off_date selected_date) (assignments (db w))
  /\ completions (db (snd (copy_from_yesterday s selected_date w))) = completions (db w)
  /\ map (fun a => (a_chore_id a, a_person_id a, a_assigned_date a, a_due_date a))
       (filter (on_date selected_date)
          (assignments (db (snd (copy_from_yesterday s selected_date w)))))
     = map (fun a => (a_chore_id a, a_person_id a, selected_date, selected_date))
         (filter (on_date (selected_date - 1)) (assignments (db w))).
Proof.
  intros R U. rewrite (copy_from_yesterday_result s selected_date w R U).
  cbn [fst snd db assignments completions with_assignments].
  set (kept := filter (off_date selected_date) (assignments (db w))).
  set (copies := copied_rows (next_assignment_id (db w)) selected_date
                   (filter (on_date (selected_date - 1)) (assignments (db w)))).
  assert (filter (on_date selected_date) (kept ++ copies) = copies) as On.
  { rewrite filter_app. rewrite (filter_drops_all _ kept), (filter_keeps_all _ copies).
    - reflexivity.
    - intros a I. apply copied_rows_dates in I. apply Z.eqb_eq. tauto.
    - intros a I. apply filter_In in I. destruct I as [_ N].
      unfold off_date in N. unfold on_date. apply negb_true_iff. exact N. }
  split; [reflexivity|]. split; [exact On|]. split; [|split; [reflexivity|]].
  - rewrite filter_app. rewrite (filter_keeps_all _ kept), (filter_drops_all _ copies).
    + apply app_nil_r.
    + intros a I. apply copied_rows_dates in I. unfold off_date.
      apply negb_false_iff, Z.eqb_eq. tauto.
    + intros a I. apply filter_In in I. tauto.
  - rewrite On. apply copied_rows_fields.
Qed.

(** Timmy's completed dishes of 2024-01-01 are deleted by a copy from an
    empty 2023-12-31; the completion stays and refers to no assignment. *)
Example copy_deletes_a_completed_assignment :
  copy_from_yesterday strict_schema new_year_2024 (online household_completed)
  = (None,
     mkWorld true
       (mkDb [dad; timmy] [dishes] []
          [mkCompletion 1 1 12 (Some "done"%string) None] [] 2 2 1)
       [] [StSuccess "Copied 0 assignments!"]).
Proof. reflexivity. Qed.

Example copy_of_the_busy_day :
  assignments
    (db (snd (copy_from_yesterday strict_schema (new_year_2024 + 1) (online household_busy))))
  = [mkAssignment 1 1 (Some 2) new_year_2024 new_year_2024;
     mkAssignment 2 2 (Some 2) new_year_2024 new_year_2024;
     mkAssignment 3 3 (Some 2) new_year_2024 (new_year_2024 + 1);
     mkAssignment 5 1 (Some 2) (new_year_2024 + 1) (new_year_2024 + 1);
     mkAssignment 6 2 (Some 2) (new_year_2024 + 1) (new_year_2024 + 1);
     mkAssignment 7 3 (Some 2) (new_year_2024 + 1) (new_year_2024 + 1)].
Proof. reflexivity. Qed.

Lemma copy_from_yesterday_witness :
  reachable (online household_completed) = true
  /\ (uq_assignment_chore_date strict_schema = true ->
      unique_assignments (db (online household_completed)))
  /\ filter (on_date new_year_2024)
       (assignments (db (snd (copy_from_yesterday strict_schema new_year_2024
                                (online household_completed)))))
     = copied_rows (next_assignment_id (db (online household_completed))) new_year_2024
         (filter (on_date (new_year_2024 - 1))
            (assignments (db (online household_completed)))).
Proof.
  assert (unique_assignments (db (online household_completed))) as U.
  { intros c d. unfold count_assignments. cbn [db online household_completed assignments filter].
    destruct (same_slot c d _); cbn; lia. }
  split; [reflexivity|]. split; [intros _; exact U|].
  apply (copy_from_yesterday_replaces_the_target_date strict_schema new_year_2024
           (online household_completed) eq_refl (fun _ => U)).
Defined.

(** ** The spec's scenario, run on the household *)

Example generating_the_dishes :
  generate strict_schema no_anchor new_year_2024 (online household)
  = (true,
     online (mkDb [dad; timmy] [dishes]
               [mkAssignment 1 1 None new_year_2024 new_year_2024] [] [] 2 1 1))
  /\ db (repeat_io 3 (generate strict_schema no_anchor new_year_2024) (online household))
     = mkDb [dad; timmy] [dishes]
         [mkAssignment 1 1 None new_year_2024 new_year_2024] [] [] 2 1 1.
Proof. split; reflexivity. Qed.

Example yesterday_s_assignee_is_the_default :
  assignments
    (db (snd (generate strict_schema no_anchor (new_year_2024 + 1)
                (online household_assigned))))
  = [mkAssignment 1 1 (Some 2) new_year_2024 new_year_2024;
     mkAssignment 2 1 (Some 2) (new_year_2024 + 1) (new_year_2024 + 1)].
Proof. reflexivity. Qed.

Example from_generation_to_review :
  db (snd ((_ <- generate strict_schema no_anchor new_year_2024 ;;
            _ <- assign_chore strict_schema 1 2 new_year_2024 None ;;
            _ <- mark_chore_complete strict_schema "20240101_180000" 1 12
                   (Some "done"%string) None None ;;
            submit_review strict_schema (Some "Dad"%string) 1 true "")%io
            (online household)))
  = mkDb [dad; timmy] [dishes]
      [mkAssignment 1 1 (Some 2) new_year_2024 new_year_2024]
      [mkCompletion 1 1 12 (Some "done"%string) None]
      [mkReview 1 1 1 true (Some ""%string)] 2 2 2.
Proof. reflexivity. Qed.

(** ** Manual assignment: the later call wins *)

Lemma find_map_reassign p due c d l :
  find (same_slot c d) (map (reassign p due c d) l)
  = option_map (reassign p due c d) (find (same_slot c d) l).
Proof.
  induction l as [|a l IH]; [reflexivity|]. cbn [map find].
  rewrite same_slot_reassign. destruct (same_slot c d a); [reflexivity|exact IH].
Qed.

Lemma reassign_twice p1 due1 p2 due2 c d a :
  reassign p2 due2 c d (reassign p1 due1 c d a) = reassign p2 due2 c d a.
Proof.
  unfold reassign at 1. rewrite same_slot_reassign.
  unfold reassign. destruct (same_slot c d a); reflexivity.
Qed.

Lemma reassign_elsewhere p due c d l :
  find (same_slot c d) l = None -> map (reassign p due c d) l = l.
Proof.
  induction l as [|a l IH]; [reflexivity|]. cbn [find map]. unfold reassign at 1.
  destruct (same_slot c d a); [discriminate|]. intros F. rewrite (IH F). reflexivity.
Qed.

Lemma find_in_appended {A} (f : A -> bool) l x :
  find f l = None -> f x = true -> find f (l ++ [x]) = Some x.
Proof.
  induction l as [|a l IH]; cbn; intros F H; [rewrite H; reflexivity|].
  destruct (f a); [discriminate|auto].
Qed.

(** The statements of two assign calls for one pair, one after the other,
    leave what the second alone leaves. *)
Lemma assign_statements_twice s c p1 due1 p2 due2 d tx :
  exists tx1,
    assign_statements s c p1 d due1 tx = Returned tt tx1
    /\ assign_statements s c p2 d due2 tx1 = assign_statements s c p2 d due2 tx.
Proof.
  unfold assign_statements, tx_bind, select_assignment_id.
  destruct (find (same_slot c d) (assignments tx)) as [a|] eqn:F; cbn [option_map].
  - eexists. split; [reflexivity|].
    unfold update_assignment. cbn [assignments with_assignments next_assignment_id].
    rewrite find_map_reassign, F. cbn [option_map].
    unfold with_assignments. cbn. rewrite map_map.
    rewrite (map_ext _ _ (reassign_twice (Some p1) due1 (Some p2) due2 c d)).
    reflexivity.
  - unfold insert_assignment. rewrite (existsb_find _ (assignments tx)), F, andb_false_r.
    eexists. split; [reflexivity|].
    cbn [assignments with_assignments next_assignment_id].
    rewrite (find_in_appended _ _ _ F) by (apply same_slot_true; cbn; auto).
    cbn [option_map]. unfold update_assignment, with_assignments. cbn.
    rewrite map_app, (reassign_elsewhere _ _ _ _ _ F). cbn [map].
    unfold reassign at 1. replace (same_slot c d _) with true
      by (symmetry; apply same_slot_true; cbn; auto).
    reflexivity.
Qed.

(** X1.  Two assign calls for the same chore and date on reachable storage
    (with at most one assignment per pair) leave exactly what the second
    call alone leaves, ids and counter included: the later call wins; in
    particular a repeated call changes nothing (a retry is safe). *)
Theorem assign_later_call_wins
    (s : Schema) (chore_id p1 p2 : Z) (d : date) (due1 due2 : option date) (w : World) :
  reachable w = true ->
  unique_assignments (db w) ->
  assign_chore s chore_id p2 d due2 (snd (assign_chore s chore_id p1 d due1 w))
  = assign_chore s chore_id p2 d due2 w
  /\ assign_chore s chore_id p2 d due2 (snd (assign_chore s chore_id p2 d due2 w))
     = assign_chore s chore_id p2 d due2 w.
Proof.
  intros R _.
  assert (forall p due,
             assign_chore s chore_id p2 d due2 (snd (assign_chore s chore_id p d due w))
             = assign_chore s chore_id p2 d due2 w) as H.
  { intros p due. rewrite (assign_chore_result s chore_id p d due w), R, try_commit_result.
    destruct (assign_statements_twice s chore_id p
                (match due with None => d | Some x => x end)
                p2 (match due2 with None => d | Some x => x end) d (db w))
      as (tx1 & E1 & E2).
    rewrite E1. cbn [snd]. rewrite !assign_chore_result. cbn [reachable db].
    rewrite !R, !try_commit_result, E2. cbn [reachable db chore_photos page].
    destruct (assign_statements_twice s chore_id p2
                (match due2 with None => d | Some x => x end)
                p2 (match due2 with None => d | Some x => x end) d (db w))
      as (tx2 & E3 & _).
    rewrite E3, R. reflexivity. }
  split; apply H.
Qed.

Lemma assign_later_call_wins_witness :
  reachable (online household) = true
  /\ unique_assignments (db (online household))
  /\ assign_chore strict_schema 1 1 new_year_2024 (Some (new_year_2024 + 2))
       (snd (assign_chore strict_schema 1 2 new_year_2024 None (online household)))
     = assign_chore strict_schema 1 1 new_year_2024 (Some (new_year_2024 + 2))
         (online household).
Proof.
  assert (unique_assignments (db (online household))) as U
    by (intros c d; cbn; lia).
  split; [reflexivity|]. split; [exact U|].
  apply (assign_later_call_wins strict_schema 1 2 1 new_year_2024 None
           (Some (new_year_2024 + 2)) (online household) eq_refl U).
Defined.

(** ** Clear All, and Copy from Yesterday again *)

Lemma filter_twice {A} (f : A -> bool) l : filter f (filter f l) = filter f l.
Proof.
  apply filter_keeps_all. intros x I. apply filter_In in I. tauto.
Qed.

Lemma clear_all_result d w :
  clear_all d w =
  if reachable w
  then (None,
        mkWorld true
          (with_assignments (db w) (filter (off_date d) (assignments (db w)))
             (next_assignment_id (db w)))
          (chore_photos w) (page w ++ [StSuccess "Cleared!"]))
  else (None, mkWorld false (db w) (chore_photos w) (page w ++ connection_error)).
Proof.
  unfold clear_all, io_bind. destruct (reachable w) eqn:R.
  - rewrite get_db_connection_up by exact R.
    unfold delete_assignments_on, commit, show, io_ret, off_date. cbn. rewrite R. reflexivity.
  - rewrite get_db_connection_down by exact R. reflexivity.
Qed.

(** The statements of Copy from Yesterday, as one transaction. *)
Lemma copy_statements_after_delete s d tx :
  (delete_assignments_on d ;; insert_select_assignments s d (d - 1))%tx
    (with_assignments tx (filter (off_date d) (assignments tx)) (next_assignment_id tx))
  = (delete_assignments_on d ;; insert_select_assignments s d (d - 1))%tx tx.
Proof.
  unfold tx_bind, delete_assignments_on.
  cbn [assignments with_assignments next_assignment_id].
  change (fun a => negb (a_assigned_date a =? d)) with (off_date d).
  rewrite filter_twice. unfold with_assignments. reflexivity.
Qed.

(** X2.  Clear All removes the assignments of the selected date and nothing
    else: the other assignments, the id counter, the completions and the
    reviews stay (on unreachable storage nothing changes); a second Clear
    All changes nothing more; and Copy from Yesterday after Clear All ends
    the same way as Copy from Yesterday alone and, when that one runs to its
    end, leaves the same database. *)
Theorem clear_all_removes_the_date_only (s : Schema) (selected_date : date) (w : World) :
  db (snd (clear_all selected_date w))
  = (if reachable w
     then with_assignments (db w)
            (filter (off_date selected_date) (assignments (db w)))
            (next_assignment_id (db w))
     else db w)
  /\ db (snd (clear_all selected_date (snd (clear_all selected_date w))))
     = db (snd (clear_all selected_date w))
  /\ fst (copy_from_yesterday s selected_date (snd (clear_all selected_date w)))
     = fst (copy_from_yesterday s selected_date w)
  /\ (fst (copy_from_yesterday s selected_date w) = None ->
      db (snd (copy_from_yesterday s selected_date (snd (clear_all selected_date w))))
      = db (snd (copy_from_yesterday s selected_date w))).
Proof.
  rewrite (clear_all_result selected_date w). destruct (reachable w) eqn:R; cbn [snd db].
  - split; [reflexivity|].
    split.
    { rewrite clear_all_result. cbn [reachable db snd assignments with_assignments
                                       next_assignment_id].
      rewrite filter_twice. unfold with_assignments. reflexivity. }
    unfold copy_from_yesterday, io_bind.
    rewrite !get_db_connection_up by (cbn; auto). cbn [db].
    rewrite copy_statements_after_delete.
    destruct ((delete_assignments_on selected_date ;;
               insert_select_assignments s selected_date (selected_date - 1))%tx (db w));
      split; try reflexivity. cbn. discriminate.
  - split; [reflexivity|]. split.
    { rewrite clear_all_result. reflexivity. }
    unfold copy_from_yesterday, io_bind.
    rewrite !get_db_connection_down by (cbn; auto). split; reflexivity.
Qed.

Example clear_all_of_the_busy_day :
  clear_all new_year_2024 (online household_busy)
  = (None,
     mkWorld true
       (mkDb [dad; timmy]
          [dishes; mkChore 2 "Hall" "Shoes" 5 false None None;
           mkChore 3 "Garden" "Leaves" 30 false None None]
          [mkAssignment 4 1 (Some 1) (new_year_2024 + 1) (new_year_2024 + 1)]
          [mkCompletion 1 1 12 (Some "done"%string) None] [] 5 2 1)
       [] [StSuccess "Cleared!"]).
Proof. reflexivity. Qed.

(** ** Copy from Yesterday keeps the pairs unique, and loses the completions *)

Lemma count_slot_off_date c x d l :
  List.length (filter (same_slot c x) (filter (off_date d) l))
  = if x =? d then 0%nat else List.length (filter (same_slot c x) l).
Proof.
  induction l as [|a l IH]; [destruct (x =? d); reflexivity|].
  cbn [filter]. unfold off_date at 1.
  destruct (a_assigned_date a =? d) eqn:E; cbn [negb filter].
  - rewrite IH. apply Z.eqb_eq in E.
    destruct (x =? d) eqn:X; [reflexivity|].
    replace (same_slot c x a) with false; [reflexivity|].
    symmetry. apply not_true_is_false. intros S. apply same_slot_true in S.
    apply Z.eqb_neq in X. lia.
  - destruct (same_slot c x a) eqn:S; cbn [List.length]; rewrite IH.
    + apply same_slot_true in S. apply Z.eqb_neq in E.
      replace (x =? d) with false by (symmetry; apply Z.eqb_neq; lia). reflexivity.
    + reflexivity.
Qed.

Lemma count_slot_copies c x next d rows :
  List.length (filter (same_slot c x) (copied_rows next d rows))
  = if x =? d then List.length (filter (fun a => a_chore_id a =? c) rows) else 0%nat.
Proof.
  revert next. induction rows as [|a rows IH]; intros next;
    [destruct (x =? d); reflexivity|].
  cbn [copied_rows filter]. unfold same_slot at 1. cbn [a_chore_id a_assigned_date].
  rewrite (Z.eqb_sym d x).
  destruct (x =? d); rewrite ?andb_false_r, ?andb_true_r.
  - destruct (a_chore_id a =? c); cbn [List.length]; rewrite IH; reflexivity.
  - apply IH.
Qed.

Lemma count_chore_on_date c p l :
  List.length (filter (fun a => a_chore_id a =? c) (filter (on_date p) l))
  = List.length (filter (same_slot c p) l).
Proof.
  induction l as [|a l IH]; [reflexivity|]. cbn [filter]. unfold on_date at 1, same_slot at 1.
  destruct (a_assigned_date a =? p); rewrite ?andb_false_r, ?andb_true_r; cbn [filter].
  - destruct (a_chore_id a =? c); cbn [List.length]; rewrite IH; reflexivity.
  - exact IH.
Qed.

(** X3.  Copy from Yesterday keeps the (chore, assigned date) pairs unique:
    from a store with at most one assignment per pair it leaves a store
    with at most one assignment per pair, under every schema and whether or
    not the storage is reachable. *)
Theorem copy_from_yesterday_keeps_pairs_unique
    (s : Schema) (selected_date : date) (w : World) :
  unique_assignments (db w) ->
  unique_assignments (db (snd (copy_from_yesterday s selected_date w))).
Proof.
  intros U. destruct (reachable w) eqn:R.
  - rewrite (copy_from_yesterday_result s selected_date w R (fun _ => U)).
    cbn [snd db]. intros c x. unfold count_assignments.
    cbn [assignments with_assignments].
    rewrite filter_app, length_app, count_slot_off_date, count_slot_copies,
      count_chore_on_date.
    pose proof (U c x) as Ux. pose proof (U c (selected_date - 1)) as Up.
    unfold count_assignments in Ux, Up.
    destruct (x =? selected_date); lia.
  - unfold copy_from_yesterday, io_bind.
    rewrite get_db_connection_down by exact R. exact U.
Qed.

Lemma copy_from_yesterday_keeps_pairs_unique_witness :
  unique_assignments (db (online household_completed))
  /\ unique_assignments
       (db (snd (copy_from_yesterday lax_schema (new_year_2024 + 1)
                   (online household_completed)))).
Proof.
  assert (unique_assignments (db (online household_completed))) as U.
  { intros c d. unfold count_assignments.
    cbn [db online household_completed assignments filter].
    destruct (same_slot c d _); cbn; lia. }
  split; [exact U|].
  apply (copy_from_yesterday_keeps_pairs_unique lax_schema (new_year_2024 + 1)
           (online household_completed) U).
Defined.


Lemma order_views_in v l : In v (order_views l) <-> In v l.
Proof.
  unfold order_views. induction l as [|x l IH]; cbn; [tauto|].
  assert (forall m, In v (insert_view x m) <-> v = x \/ In v m) as H.
  { induction m as [|y m IHm]; cbn; [intuition congruence|].
    destruct (view_before x y); cbn; [intuition congruence|].
    rewrite IHm. intuition congruence. }
  rewrite H, IH. intuition congruence.
Qed.

Lemma left_join_none {A} (l : list A) : In None (left_join l) <-> l = [].
Proof.
  destruct l as [|x l]; cbn; [intuition|]. split; [|discriminate].
  intros [H|H]; [discriminate|]. apply in_map_iff in H. destruct H as (y & E & _). discriminate.
Qed.

Lemma left_join_some {A} (l : list A) x : In (Some x) (left_join l) <-> In x l.
Proof.
  destruct l as [|y l]; cbn; [intuition discriminate|]. split.
  - intros [H|H]; [injection H as ->; auto|]. apply in_map_iff in H.
    destruct H as (z & E & I). injection E as ->. auto.
  - intros [->|I]; [auto|]. right. apply in_map. exact I.
Qed.

(** Where a listed row of [get_assignments_for_date] comes from. *)
Lemma assignment_view_origin tx d v :
  In v (assignment_views tx d) ->
  exists a p,
    In a (assignments tx) /\ a_assigned_date a = d /\ a_id a = av_assignment_id v
    /\ In p (people tx) /\ a_person_id a = Some (p_id p) /\ av_assigned_to v = p_name p
    /\ av_is_completed v = has_completion tx (a_id a).
Proof.
  unfold assignment_views. intros I.
  apply in_flat_map in I. destruct I as (a & Ia & I).
  apply in_flat_map in I. destruct I as (c & Ic & I).
  apply in_flat_map in I. destruct I as (p & Ip & I).
  apply in_flat_map in I. destruct I as (comp & Icomp & I).
  apply in_flat_map in I. destruct I as (pr & Ipr & I).
  apply in_map_iff in I. destruct I as (p2 & <- & _).
  apply filter_In in Ia. destruct Ia as [Ia Da]. apply Z.eqb_eq in Da.
  apply filter_In in Ip. destruct Ip as [Ip Pp].
  exists a, p. cbn [av_assignment_id av_assigned_to av_is_completed].
  split; [exact Ia|]. split; [exact Da|]. split; [reflexivity|]. split; [exact Ip|].
  split.
  { unfold is_person_of in Pp. destruct (a_person_id a); [|discriminate].
    apply Z.eqb_eq in Pp. congruence. }
  split; [reflexivity|]. unfold has_completion. destruct comp as [cm|].
  - apply (proj1 (left_join_some _ _)) in Icomp. symmetry. apply existsb_exists.
    exists cm. apply filter_In in Icomp. exact Icomp.
  - apply (proj1 (left_join_none _)) in Icomp. symmetry. apply not_true_is_false. intros H.
    apply existsb_exists in H. destruct H as (cm & Icm & E).
    assert (In cm (filter (fun cm => comp_assignment_id cm =? a_id a) (completions tx)))
      as F by (apply filter_In; auto).
    rewrite Icomp in F. destruct F.
Qed.



(** ** The forms of the pages: first completions and first reviews only *)


Lemma no_review_no_rows tx id :
  has_review tx id = false ->
  filter (fun r => pr_completion_id r =? id) (parental_reviews tx) = [].
Proof.
  unfold has_review. intros H. apply filter_drops_all. intros c I.
  apply not_true_is_false. intros E.
  assert (existsb (fun r => pr_completion_id r =? id) (parental_reviews tx) = true)
    by (apply existsb_exists; eauto). congruence.
Qed.

Lemma get_assignments_for_date_up d w :
  reachable w = true ->
  get_assignments_for_date d w = (order_views (assignment_views (db w) d), w).
Proof.
  intros R. unfold get_assignments_for_date, io_bind.
  rewrite get_db_connection_up by exact R. reflexivity.
Qed.

Lemma get_assignments_for_date_down d w :
  reachable w = false ->
  get_assignments_for_date d w
  = ([], mkWorld false (db w) (chore_photos w) (page w ++ connection_error)).
Proof.
  intros R. unfold get_assignments_for_date, io_bind.
  rewrite get_db_connection_down by exact R. reflexivity.
Qed.



Example completion_form_on_the_household :
  fst (complete_chores_submit lax_schema "20240101_180000" new_year_2024 "All" true 1 12 "done"
         None (online household_assigned)) = true
  /\ fst (complete_chores_submit lax_schema "20240101_183000" new_year_2024 "All" true 1 12
            "again" None (online household_completed)) = false
  /\ fst (complete_chores_submit lax_schema "20240101_180000" new_year_2024 "All" true 1 0 "done"
            None (online household_assigned)) = false.
Proof. repeat split; reflexivity. Qed.


(** Where a listed row of the review page comes from. *)
Lemma completion_view_origin tx start_date end_date v :
  In v (completion_views tx start_date end_date) ->
  exists comp a,
    In comp (completions tx) /\ comp_id comp = cv_completion_id v
    /\ In a (assignments tx) /\ a_id a = comp_assignment_id comp
    /\ start_date <= a_assigned_date a <= end_date
    /\ (cv_review_id v = None -> has_review tx (comp_id comp) = false).
Proof.
  unfold completion_views. intros I. apply in_rev in I.
  apply in_flat_map in I. destruct I as (comp & Icomp & I).
  apply in_flat_map in I. destruct I as (a & Ia & I).
  apply in_flat_map in I. destruct I as (c & Ic & I).
  apply in_flat_map in I. destruct I as (p & Ip & I).
  apply in_flat_map in I. destruct I as (pr & Ipr & I).
  apply in_map_iff in I. destruct I as (p2 & <- & _).
  apply filter_In in Ia. destruct Ia as [Ia Pa].
  apply andb_true_iff in Pa. destruct Pa as [Pa Hi].
  apply andb_true_iff in Pa. destruct Pa as [Ea Lo].
  apply Z.eqb_eq in Ea. apply Z.leb_le in Lo, Hi.
  exists comp, a. cbn [cv_completion_id cv_review_id].
  split; [exact Icomp|]. split; [reflexivity|]. split; [exact Ia|]. split; [exact Ea|].
  split; [lia|].
  intros N. destruct pr as [r|]; [discriminate|].
  cbn [reviews_of] in Ipr. apply (proj1 (left_join_none _)) in Ipr.
  unfold has_review. apply not_true_is_false. intros H.
  apply existsb_exists in H. destruct H as (r & Ir & E).
  assert (In r (filter (fun r => pr_completion_id r =? comp_id comp) (parental_reviews tx)))
    as F by (apply filter_In; auto).
  rewrite Ipr in F. destruct F.
Qed.

(** What the review form does, spelled out. *)
Lemma parental_review_submit_cases s start_date end_date sr reviewer id approve notes w :
  (fst (parental_review_submit s start_date end_date sr reviewer id approve notes w) = false
   /\ db (snd (parental_review_submit s start_date end_date sr reviewer id approve notes w))
      = db w)
  \/ (fst (parental_review_submit s start_date end_date sr reviewer id approve notes w) = true
      /\ has_review (db w) id = false
      /\ (exists comp a, In comp (completions (db w)) /\ comp_id comp = id
                         /\ In a (assignments (db w)) /\ a_id a = comp_assignment_id comp
                         /\ start_date <= a_assigned_date a <= end_date)
      /\ exists p,
           In p (people (db w)) /\ is_parent_name p = true /\ reviewer = Some (p_name p)
           /\ parental_reviews
                (db (snd (parental_review_submit s start_date end_date sr reviewer id approve
                            notes w)))
              = parental_reviews (db w)
                ++ [mkReview (next_review_id (db w)) id (p_id p) approve (Some notes)]).
Proof.
  unfold parental_review_submit, io_bind.
  destruct (reachable w) eqn:R.
  2:{ rewrite get_db_connection_down by exact R. left. split; reflexivity. }
  rewrite get_db_connection_up by exact R.
  rewrite get_all_people_up by exact R.
  set (L := completion_views (db w) start_date end_date).
  set (L' := if sr then L
             else filter (fun c => match cv_review_id c with None => true | Some _ => false end) L).
  assert (forall v, In v L' -> In v L) as Sub.
  { intros v I. unfold L' in I. destruct sr; [exact I|]. apply filter_In in I. tauto. }
  destruct (find (fun c => (cv_completion_id c =? id)
                           && match cv_review_id c with None => true | Some _ => false end) L')
    as [v|] eqn:Fd; [|left; split; reflexivity].
  apply find_some in Fd. destruct Fd as [Iv Pv].
  apply andb_true_iff in Pv. destruct Pv as [Eid NR]. apply Z.eqb_eq in Eid.
  apply Sub in Iv. unfold L in Iv. apply completion_view_origin in Iv.
  destruct Iv as (comp & a & Icomp & Ecomp & Ia & Ea & Range & NoRev).
  assert (has_review (db w) id = false) as NoR.
  { rewrite <- Eid, <- Ecomp. apply NoRev. destruct (cv_review_id v); [discriminate|reflexivity]. }
  destruct reviewer as [name|]; [|left; split; reflexivity].
  destruct (find (fun p => String.eqb (p_name p) name)
              (filter is_parent_name (order_by_name (people (db w))))) as [p|] eqn:Fp;
    cbn [option_map]; [|left; split; reflexivity].
  apply find_some in Fp. destruct Fp as [Ip En]. apply String.eqb_eq in En.
  apply filter_In in Ip. destruct Ip as [Ip Par]. apply (proj1 (in_order_by_name _ _)) in Ip.
  destruct (python_truthy (p_id p)); [|left; split; reflexivity].
  rewrite add_parental_review_result, R, try_commit_result. unfold insert_review.
  change (existsb (fun r => pr_completion_id r =? cv_completion_id v) (parental_reviews (db w)))
    with (has_review (db w) (cv_completion_id v)).
  rewrite Eid, NoR, andb_false_r. right. cbn [fst snd db parental_reviews with_reviews].
  split; [reflexivity|]. split; [reflexivity|].
  split; [exists comp, a; repeat split; auto; try lia; congruence|].
  exists p. repeat split; auto. congruence.
Qed.

(** X6.  Through the review form a review is recorded only for a completion
    that exists, belongs to an assignment in the page's date range and has
    no review yet, and only under the id of the selected person, who is
    named Dad or Mom; in every other case the form changes nothing in the
    database.  So, under every schema, the form keeps "at most one review
    per completion". *)
Theorem review_form_records_first_reviews_only
    (s : Schema) (start_date end_date : date) (show_reviewed : bool)
    (reviewer : option string) (completion_id : Z) (approve : bool) (review_notes : string)
    (w : World) :
  (fst (parental_review_submit s start_date end_date show_reviewed reviewer completion_id
          approve review_notes w) = true ->
     has_review (db w) completion_id = false
     /\ (exists comp a, In comp (completions (db w)) /\ comp_id comp = completion_id
                        /\ In a (assignments (db w)) /\ a_id a = comp_assignment_id comp
                        /\ start_date <= a_assigned_date a <= end_date)
     /\ exists p,
          In p (people (db w)) /\ is_parent_name p = true /\ reviewer = Some (p_name p)
          /\ parental_reviews
               (db (snd (parental_review_submit s start_date end_date show_reviewed reviewer
                           completion_id approve review_notes w)))
             = parental_reviews (db w)
               ++ [mkReview (next_review_id (db w)) completion_id (p_id p) approve
                     (Some review_notes)])
  /\ (fst (parental_review_submit s start_date end_date show_reviewed reviewer completion_id
             approve review_notes w) = false ->
        db (snd (parental_review_submit s start_date end_date show_reviewed reviewer
                   completion_id approve review_notes w)) = db w)
  /\ (unique_reviews (db w) ->
        unique_reviews
          (db (snd (parental_review_submit s start_date end_date show_reviewed reviewer
                      completion_id approve review_notes w)))).
Proof.
  destruct (parental_review_submit_cases s start_date end_date show_reviewed reviewer
              completion_id approve review_notes w)
    as [[F D]|(T & NR & Ex & p & Ip & Par & Er & Rs)].
  - rewrite F, D. split; [discriminate|]. split; auto.
  - rewrite T. split; [eauto 10|]. split; [discriminate|].
    intros U id. rewrite Rs, filter_app, length_app. cbn [filter].
    destruct (completion_id =? id) eqn:E; cbn [pr_completion_id]; rewrite E;
      cbn [List.length].
    + apply Z.eqb_eq in E. subst id. rewrite (no_review_no_rows _ _ NR). cbn. lia.
    + specialize (U id). lia.
Qed.

Example review_form_on_the_household :
  fst (parental_review_submit lax_schema new_year_2024 (new_year_2024 + 6) false
         (Some "Dad"%string) 1 true "well done" (online household_completed)) = true
  /\ fst (parental_review_submit lax_schema new_year_2024 (new_year_2024 + 6) true
            (Some "Dad"%string) 1 false "once more"
            (snd (parental_review_submit lax_schema new_year_2024 (new_year_2024 + 6) false
                    (Some "Dad"%string) 1 true "well done" (online household_completed))))
     = false
  /\ fst (parental_review_submit lax_schema new_year_2024 (new_year_2024 + 6) false
            (Some "Timmy"%string) 1 true "I did well" (online household_completed)) = false
  /\ fst (parental_review_submit lax_schema (new_year_2024 + 1) (new_year_2024 + 6) false
            (Some "Dad"%string) 1 true "well done" (online household_completed)) = false.
Proof. repeat split; reflexivity. Qed.

Lemma review_form_witness :
  unique_reviews (db (online household_completed))
  /\ unique_reviews
       (db (snd (parental_review_submit lax_schema new_year_2024 (new_year_2024 + 6) false
                   (Some "Dad"%string) 1 true "well done" (online household_completed)))).
Proof.
  assert (unique_reviews (db (online household_completed))) as U
    by (intros id; cbn; lia).
  split; [exact U|].
  apply (review_form_records_first_reviews_only lax_schema new_year_2024 (new_year_2024 + 6)
           false (Some "Dad"%string) 1 true "well done" (online household_completed)).
  exact U.
Defined.

(** ** The report pages *)

(** X7.  The "This Week" period of the report pages starts on the Monday on
    or before today and ends today: its start is a Monday, at most six days
    back. *)
Theorem this_week_starts_on_monday (today : date) :
  weekday_of (fst (this_week today)) = Mon
  /\ fst (this_week today) <= today
  /\ today - fst (this_week today) <= 6
  /\ snd (this_week today) = today.
Proof.
  unfold this_week, weekday_of, weekday_index. cbn [fst snd].
  pose proof (Z.mod_pos_bound (today + 6) 7 ltac:(lia)) as B.
  pose proof (Z.div_mod (today + 6) 7 ltac:(lia)) as D.
  replace ((today - (today + 6) mod 7 + 6) mod 7) with 0.
  - repeat split; lia.
  - replace (today - (today + 6) mod 7 + 6) with (((today + 6) / 7) * 7) by lia.
    symmetry. apply Z.mod_mul. lia.
Qed.

Example this_week_of_a_thursday :
  this_week (new_year_2024 + 3) = (new_year_2024, new_year_2024 + 3)
  /\ this_week new_year_2024 = (new_year_2024, new_year_2024).
Proof. split; reflexivity. Qed.

Lemma insert_date_hd x d l : HdRel Z.lt x l -> x < d -> HdRel Z.lt x (insert_date d l).
Proof.
  intros H L. destruct l as [|y l]; cbn; [constructor; exact L|].
  inversion H; subst.
  destruct (d <? y); [constructor; exact L|].
  destruct (d =? y); constructor; assumption.
Qed.

Lemma insert_date_sorted d l : Sorted Z.lt l -> Sorted Z.lt (insert_date d l).
Proof.
  induction l as [|y l IH]; intros S; cbn; [repeat constructor|].
  inversion S as [|? ? S' H]; subst.
  destruct (d <? y) eqn:Lt.
  - apply Z.ltb_lt in Lt. constructor; [exact S|constructor; exact Lt].
  - destruct (d =? y) eqn:Eq; [exact S|].
    apply Z.ltb_ge in Lt. apply Z.eqb_neq in Eq.
    constructor; [apply IH; exact S'|]. apply insert_date_hd; [exact H|lia].
Qed.

Lemma dates_sorted (l : list date) : Sorted Z.lt (fold_right insert_date [] l).
Proof. induction l as [|d l IH]; cbn; [constructor|apply insert_date_sorted; exact IH]. Qed.

Lemma in_dates d (l : list date) : In d (fold_right insert_date [] l) <-> In d l.
Proof.
  induction l as [|x l IH]; cbn; [tauto|]. rewrite in_insert_date, IH. intuition congruence.
Qed.

Lemma report_join_origin tx person_id start_date end_date r :
  In r (report_join tx person_id start_date end_date) ->
  In (jr_assignment r) (assignments tx)
  /\ assigned_to person_id (jr_assignment r) = true
  /\ start_date <= a_assigned_date (jr_assignment r) <= end_date
  /\ match jr_completion r with
     | Some cm => In cm (completions tx) /\ comp_assignment_id cm = a_id (jr_assignment r)
     | None => True
     end.
Proof.
  unfold report_join. intros I.
  apply in_flat_map in I. destruct I as (a & Ia & I).
  apply in_flat_map in I. destruct I as (c & Ic & I).
  apply in_map_iff in I. destruct I as (oc & <- & Ioc).
  apply filter_In in Ia. destruct Ia as [Ia Pa].
  apply andb_true_iff in Pa. destruct Pa as [Pa Hi].
  apply andb_true_iff in Pa. destruct Pa as [Pa Lo].
  apply Z.leb_le in Lo, Hi. cbn [jr_assignment jr_completion fst snd].
  split; [exact Ia|]. split; [exact Pa|]. split; [lia|].
  destruct oc as [cm|]; [|exact I].
  unfold left_join_completions in Ioc.
  destruct (filter (fun c => comp_assignment_id c =? a_id a) (completions tx)) as [|c0 l] eqn:F;
    [destruct Ioc as [H|[]]; discriminate|].
  apply in_map_iff in Ioc. destruct Ioc as (cm' & E & Icm). injection E as ->.
  rewrite <- F in Icm. apply filter_In in Icm. destruct Icm as [Icm E].
  apply Z.eqb_eq in E. auto.
Qed.

(** X8.  The rows of the individual report come in strictly ascending date
    order, one row per date; each date lies in the requested range and is a
    date on which the person has an assignment: days without assignments
    have no row. *)
Theorem individual_report_rows_ascend_within_the_range
    (person_id : Z) (start_date end_date : date) (w : World) :
  Sorted Z.lt (map rr_date (fst (get_individual_report person_id start_date end_date w)))
  /\ forall row,
       In row (fst (get_individual_report person_id start_date end_date w)) ->
       start_date <= rr_date row <= end_date
       /\ exists a, In a (assignments (db w)) /\ assigned_to person_id a = true
                    /\ a_assigned_date a = rr_date row.
Proof.
  unfold get_individual_report, io_bind. destruct (reachable w) eqn:R.
  2:{ rewrite get_db_connection_down by exact R. cbn. split; [constructor|tauto]. }
  rewrite get_db_connection_up by exact R. cbn [io_ret fst].
  unfold individual_report_query. split.
  - rewrite map_map. cbn [report_group rr_date]. rewrite map_id.
    unfold group_dates. apply dates_sorted.
  - intros row I. apply in_map_iff in I. destruct I as (d & <- & I).
    cbn [report_group rr_date]. apply in_group_dates in I. destruct I as (r & Ir & E).
    apply report_join_origin in Ir. destruct Ir as (Ia & Pa & Range & _).
    split; [lia|]. exists (jr_assignment r). auto.
Qed.

Example report_rows_of_two_days :
  map rr_date (fst (get_individual_report 2 (new_year_2024 - 7) (new_year_2024 + 7)
                      (online (mkDb [dad; timmy] [dishes]
                                 [mkAssignment 1 1 (Some 2) (new_year_2024 + 2) (new_year_2024 + 2);
                                  mkAssignment 2 1 (Some 2) new_year_2024 new_year_2024;
                                  mkAssignment 3 1 (Some 2) (new_year_2024 + 9) (new_year_2024 + 9)]
                                 [] [] 4 1 1))))
  = [new_year_2024; new_year_2024 + 2].
Proof. reflexivity. Qed.

Lemma family_join_origin tx start_date end_date r :
  In r (family_join tx start_date end_date) ->
  In (fst r) (assignments tx)
  /\ start_date <= a_assigned_date (fst r) <= end_date
  /\ match snd r with
     | Some cm => In cm (completions tx) /\ comp_assignment_id cm = a_id (fst r)
     | None => True
     end.
Proof.
  unfold family_join. intros I.
  apply in_flat_map in I. destruct I as (a & Ia & I).
  apply in_map_iff in I. destruct I as (oc & <- & Ioc).
  apply filter_In in Ia. destruct Ia as [Ia Pa].
  apply andb_true_iff in Pa. destruct Pa as [Lo Hi].
  apply Z.leb_le in Lo, Hi. cbn [fst snd].
  split; [exact Ia|]. split; [lia|].
  destruct oc as [cm|]; [|exact I].
  unfold left_join_completions in Ioc.
  destruct (filter (fun c => comp_assignment_id c =? a_id a) (completions tx)) as [|c0 l] eqn:F;
    [destruct Ioc as [H|[]]; discriminate|].
  apply in_map_iff in Ioc. destruct Ioc as (cm' & E & Icm). injection E as ->.
  rewrite <- F in Icm. apply filter_In in Icm. destruct Icm as [Icm E].
  apply Z.eqb_eq in E. auto.
Qed.

Lemma left_join_completions_inhabited tx a :
  exists oc, In oc (left_join_completions tx a).
Proof.
  unfold left_join_completions.
  destruct (filter (fun c => comp_assignment_id c =? a_id a) (completions tx)) as [|c l];
    [exists None|exists (Some c)]; cbn; auto.
Qed.

(** Every assignment of the range comes out of the join of the family
    report, whether it has a completion or not. *)
Lemma family_join_covers tx start_date end_date a :
  In a (assignments tx) ->
  start_date <= a_assigned_date a <= end_date ->
  exists oc, In (a, oc) (family_join tx start_date end_date).
Proof.
  intros Ia Range. destruct (left_join_completions_inhabited tx a) as [oc Ioc].
  exists oc. unfold family_join. apply in_flat_map. exists a. split.
  - apply filter_In. split; [exact Ia|].
    apply andb_true_iff. split; apply Z.leb_le; lia.
  - apply in_map_iff. exists oc. auto.
Qed.

(** X9.  The family report has one row per date on which some assignment
    exists in the range, in strictly ascending date order: on reachable
    storage every assignment of the range has the row of its date, and
    every row is the row of the date of some assignment of the range; every
    row counts at least one assignment, and its completion_rate is the
    number of tenths of a percent nearest to
    [100 * total_completed / total_assigned], never NULL.  When the storage
    is unreachable the report has no rows. *)
Theorem family_report_rows
    (start_date end_date : date) (w : World) :
  Sorted Z.lt (map fr_date (fst (get_family_report start_date end_date w)))
  /\ (forall row,
       In row (fst (get_family_report start_date end_date w)) ->
       start_date <= fr_date row <= end_date
       /\ 1 <= fr_total_assigned row
       /\ 0 <= fr_total_completed row
       /\ fr_completion_rate row
          = Some (round_rate (fr_total_completed row) (fr_total_assigned row))
       /\ 2 * Z.abs (round_rate (fr_total_completed row) (fr_total_assigned row)
                     * fr_total_assigned row - 1000 * fr_total_completed row)
          <= fr_total_assigned row)
  /\ (reachable w = true ->
      forall a,
        In a (assignments (db w)) ->
        start_date <= a_assigned_date a <= end_date ->
        exists row,
          In row (fst (get_family_report start_date end_date w))
          /\ fr_date row = a_assigned_date a)
  /\ (forall row,
        In row (fst (get_family_report start_date end_date w)) ->
        exists a,
          In a (assignments (db w))
          /\ start_date <= a_assigned_date a <= end_date
          /\ a_assigned_date a = fr_date row)
  /\ (reachable w = false -> fst (get_family_report start_date end_date w) = []).
Proof.
  unfold get_family_report, io_bind. destruct (reachable w) eqn:R.
  2:{ rewrite get_db_connection_down by exact R. cbn.
      split; [constructor|]. split; [tauto|]. split; [discriminate|].
      split; [tauto|reflexivity]. }
  rewrite get_db_connection_up by exact R. cbn [io_ret fst].
  unfold family_report_query. split; [|split; [|split; [|split; [|discriminate]]]].
  - rewrite map_map. cbn [family_group fr_date]. rewrite map_id. apply dates_sorted.
  - intros row I. apply in_map_iff in I. destruct I as (d & <- & I).
    cbn [family_group fr_date fr_total_assigned fr_total_completed fr_completion_rate].
    apply (proj1 (in_dates _ _)) in I. apply in_map_iff in I. destruct I as (r & E & Ir).
    pose proof (family_join_origin _ _ _ _ Ir) as (Ia & Range & _).
    assert (1 <= count_distinct
                   (map (fun r => a_id (fst r))
                      (filter (fun r => a_assigned_date (fst r) =? d)
                         (family_join (db w) start_date end_date)))) as A.
    { apply (count_distinct_positive (a_id (fst r))). apply in_map_iff.
      exists r. split; [reflexivity|]. apply filter_In. split; [exact Ir|].
      apply Z.eqb_eq. exact E. }
    split; [lia|]. split; [exact A|]. split; [apply count_distinct_nonneg|].
    split; [apply sql_rate_is_round_rate; [apply count_distinct_nonneg|exact A]|].
    apply round_rate_nearest. exact A.
  - intros _ a Ia Range.
    destruct (family_join_covers (db w) start_date end_date a Ia Range) as [oc Ir].
    exists (family_group (family_join (db w) start_date end_date) (a_assigned_date a)).
    split; [|reflexivity].
    apply in_map. apply (proj2 (in_dates _ _)).
    apply in_map_iff. exists (a, oc). auto.
  - intros row I. apply in_map_iff in I. destruct I as (d & <- & I).
    apply (proj1 (in_dates _ _)) in I. apply in_map_iff in I. destruct I as (r & E & Ir).
    pose proof (family_join_origin _ _ _ _ Ir) as (Ia & Range & _).
    exists (fst r). cbn [family_group fr_date]. auto.
Qed.

Lemma family_report_rows_witness :
  reachable (online household_busy) = true
  /\ exists row,
       In row (fst (get_family_report new_year_2024 (new_year_2024 + 6)
                      (online household_busy)))
       /\ fr_date row = new_year_2024.
Proof.
  split; [reflexivity|].
  pose proof (family_report_rows new_year_2024 (new_year_2024 + 6) (online household_busy))
    as (_ & _ & Covered & _).
  destruct (Covered eq_refl
              (mkAssignment 1 1 (Some 2) new_year_2024 new_year_2024)) as (row & I & E).
  - vm_compute. auto.
  - cbn [a_assigned_date]. unfold new_year_2024. lia.
  - exists row. split; [exact I|exact E].
Defined.

Example family_report_of_the_busy_household :
  fst (get_family_report new_year_2024 (new_year_2024 + 6) (online household_busy))
  = [mkFamilyRow new_year_2024 3 1 (Some 333); mkFamilyRow (new_year_2024 + 1) 1 0 (Some 0)].
Proof. reflexivity. Qed.

(** ** At most one completion per assignment: rates up to 100 percent *)

Lemma count_distinct_incl l1 l2 : incl l1 l2 -> count_distinct l1 <= count_distinct l2.
Proof.
  intros H. unfold count_distinct. apply inj_le.
  apply NoDup_incl_length; [apply NoDup_nodup|].
  intros x I. apply (proj2 (nodup_In Z.eq_dec _ _)). apply H.
  apply (proj1 (nodup_In Z.eq_dec _ _)) in I. exact I.
Qed.

Lemma count_distinct_le_length l : count_distinct l <= Z.of_nat (List.length l).
Proof.
  unfold count_distinct. apply inj_le.
  apply NoDup_incl_length; [apply NoDup_nodup|].
  intros x I. apply (proj1 (nodup_In Z.eq_dec _ _)) in I. exact I.
Qed.

(** If [f] is determined by [g] on a list, the list has no more distinct
    [f]-values than [g]-values. *)
Lemma count_distinct_factor {A} (f g : A -> Z) (l : list A) :
  (forall x y, In x l -> In y l -> g x = g y -> f x = f y) ->
  count_distinct (map f l) <= count_distinct (map g l).
Proof.
  intros H.
  set (phi := fun v => match find (fun x => g x =? v) l with
                       | Some x => f x
                       | None => 0
                       end).
  apply Z.le_trans with (count_distinct (map phi (nodup Z.eq_dec (map g l)))).
  - apply count_distinct_incl. intros v I. apply in_map_iff in I.
    destruct I as (x & <- & Ix). apply in_map_iff. exists (g x). split.
    + unfold phi. destruct (find (fun x0 => g x0 =? g x) l) as [y|] eqn:F.
      * apply find_some in F. destruct F as [Iy E]. apply Z.eqb_eq in E.
        apply H; assumption.
      * apply (find_none _ _ F) in Ix. apply Z.eqb_neq in Ix. congruence.
    + apply (proj2 (nodup_In Z.eq_dec _ _)). apply in_map. exact Ix.
  - etransitivity; [apply count_distinct_le_length|].
    rewrite length_map. unfold count_distinct. lia.
Qed.

Lemma unique_completion_of_an_assignment tx x y :
  unique_completions tx ->
  In x (completions tx) -> In y (completions tx) ->
  comp_assignment_id x = comp_assignment_id y -> x = y.
Proof.
  intros U Ix Iy E. specialize (U (comp_assignment_id x)).
  assert (In x (filter (fun c => comp_assignment_id c =? comp_assignment_id x)
                  (completions tx))) as Fx
    by (apply filter_In; split; [exact Ix|apply Z.eqb_refl]).
  assert (In y (filter (fun c => comp_assignment_id c =? comp_assignment_id x)
                  (completions tx))) as Fy
    by (apply filter_In; split; [exact Iy|apply Z.eqb_eq; congruence]).
  destruct (filter (fun c => comp_assignment_id c =? comp_assignment_id x) (completions tx))
    as [|z [|z' l]]; cbn in U.
  - destruct Fx.
  - destruct Fx as [<-|[]]. destruct Fy as [<-|[]]. reflexivity.
  - lia.
Qed.

Lemma in_non_null {A} (l : list (option A)) x : In x (non_null l) <-> In (Some x) l.
Proof.
  unfold non_null. rewrite in_flat_map. split.
  - intros (o & I & H). destruct o as [y|]; [|destruct H].
    destruct H as [<-|[]]. exact I.
  - intros I. exists (Some x). split; [exact I|left; reflexivity].
Qed.

(** The counting argument shared by the two reports: the completions joined
    to a group of rows are no more than the group's assignments. *)
Lemma completed_at_most_assigned {R} tx (assignment_of : R -> assignment)
    (completion_of : R -> option completion) (g : list R) :
  unique_completions tx ->
  (forall r, In r g ->
             match completion_of r with
             | Some cm => In cm (completions tx)
                          /\ comp_assignment_id cm = a_id (assignment_of r)
             | None => True
             end) ->
  count_distinct (map comp_id (non_null (map completion_of g)))
  <= count_distinct (map (fun r => a_id (assignment_of r)) g).
Proof.
  intros U H.
  apply Z.le_trans
    with (count_distinct (map comp_assignment_id (non_null (map completion_of g)))).
  - apply count_distinct_factor. intros x y Ix Iy E.
    apply (proj1 (in_non_null _ _)) in Ix. apply (proj1 (in_non_null _ _)) in Iy.
    apply in_map_iff in Ix. destruct Ix as (rx & Ex & Irx).
    apply in_map_iff in Iy. destruct Iy as (ry & Ey & Iry).
    pose proof (H rx Irx) as Hx. rewrite Ex in Hx.
    pose proof (H ry Iry) as Hy. rewrite Ey in Hy.
    f_equal. apply (unique_completion_of_an_assignment tx); tauto.
  - apply count_distinct_incl. intros v I. apply in_map_iff in I.
    destruct I as (cm & <- & Icm). apply (proj1 (in_non_null _ _)) in Icm.
    apply in_map_iff in Icm. destruct Icm as (r & Er & Ir).
    pose proof (H r Ir) as Hr. rewrite Er in Hr. destruct Hr as [_ ->].
    apply in_map_iff. exists r. auto.
Qed.

Lemma round_rate_at_most_100 completed assigned :
  1 <= assigned -> completed <= assigned -> round_rate completed assigned <= 1000.
Proof.
  intros A C. unfold round_rate.
  apply Z.le_trans with ((2000 * assigned + assigned) / (2 * assigned)).
  - apply Z.div_le_mono; lia.
  - apply Z.lt_succ_r. apply Z.div_lt_upper_bound; lia.
Qed.

(** X10.  While every assignment has at most one completion, no report row
    counts more completions than assignments, and no completion_rate exceeds
    100.0 percent, in the individual and in the family report. *)
Theorem report_rates_stay_within_100_percent
    (person_id : Z) (start_date end_date : date) (w : World) :
  unique_completions (db w) ->
  (forall row,
      In row (fst (get_individual_report person_id start_date end_date w)) ->
      rr_completed row <= rr_assigned row
      /\ exists rate, rr_completion_rate row = Some rate /\ 0 <= rate <= 1000)
  /\ (forall row,
        In row (fst (get_family_report start_date end_date w)) ->
        fr_total_completed row <= fr_total_assigned row
        /\ exists rate, fr_completion_rate row = Some rate /\ 0 <= rate <= 1000).
Proof.
  intros U. unfold get_individual_report, get_family_report, io_bind.
  destruct (reachable w) eqn:R.
  2:{ rewrite !get_db_connection_down by exact R. cbn. tauto. }
  rewrite !get_db_connection_up by exact R. cbn [io_ret fst]. split.
  - intros row I. pose proof (report_rows_have_assignments _ _ _ _ _ I) as (A & C & Rate).
    assert (rr_completed row <= rr_assigned row) as Le.
    { unfold individual_report_query in I. apply in_map_iff in I. destruct I as (d & <- & _).
      cbn [report_group rr_completed rr_assigned].
      apply (completed_at_most_assigned (db w) jr_assignment jr_completion); [exact U|].
      intros r Ir. apply filter_In in Ir. destruct Ir as [Ir _].
      apply report_join_origin in Ir. tauto. }
    split; [exact Le|]. exists (round_rate (rr_completed row) (rr_assigned row)).
    rewrite Rate. split; [apply sql_rate_is_round_rate; lia|].
    split; [|apply round_rate_at_most_100; lia].
    unfold round_rate. apply Z.div_pos; lia.
  - intros row I. unfold family_report_query in I.
    apply in_map_iff in I. destruct I as (d & <- & I).
    cbn [family_group fr_total_completed fr_total_assigned fr_completion_rate].
    apply (proj1 (in_dates _ _)) in I. apply in_map_iff in I. destruct I as (r & E & Ir).
    set (g := filter (fun r => a_assigned_date (fst r) =? d)
                (family_join (db w) start_date end_date)).
    assert (1 <= count_distinct (map (fun r => a_id (fst r)) g)) as A.
    { apply (count_distinct_positive (a_id (fst r))). apply in_map_iff.
      exists r. split; [reflexivity|]. apply filter_In. split; [exact Ir|].
      apply Z.eqb_eq. exact E. }
    assert (count_distinct (map comp_id (non_null (map snd g)))
            <= count_distinct (map (fun r => a_id (fst r)) g)) as Le.
    { apply (completed_at_most_assigned (db w) fst snd); [exact U|].
      intros r' Ir'. apply filter_In in Ir'. destruct Ir' as [Ir' _].
      apply family_join_origin in Ir'. tauto. }
    split; [exact Le|].
    exists (round_rate (count_distinct (map comp_id (non_null (map snd g))))
              (count_distinct (map (fun r => a_id (fst r)) g))).
    split; [apply sql_rate_is_round_rate; [apply count_distinct_nonneg|exact A]|].
    split; [|apply round_rate_at_most_100; lia].
    unfold round_rate. apply Z.div_pos; [|lia].
    pose proof (count_distinct_nonneg (map comp_id (non_null (map snd g)))). lia.
Qed.

(** Without the constraint: two completions of one assignment give 200.0
    percent. *)
Example a_rate_of_200_percent :
  fst (get_individual_report 2 new_year_2024 new_year_2024
         (snd (mark_chore_complete lax_schema "20240101_180000" 1 12 None None None
                 (online household_completed))))
  = [mkReportRow new_year_2024 1 2 (Some 2000) 30 24].
Proof. reflexivity. Qed.

Lemma report_rates_witness :
  unique_completions (db (online household_busy))
  /\ forall row,
       In row (fst (get_individual_report 2 new_year_2024 (new_year_2024 + 6)
                      (online household_busy))) ->
       rr_completed row <= rr_assigned row
       /\ exists rate, rr_completion_rate row = Some rate /\ 0 <= rate <= 1000.
Proof.
  assert (unique_completions (db (online household_busy))) as U.
  { intros id. cbn [db online household_busy completions filter comp_assignment_id].
    destruct (1 =? id); cbn; lia. }
  split; [exact U|].
  apply (report_rates_stay_within_100_percent 2 new_year_2024 (new_year_2024 + 6)
           (online household_busy) U).
Defined.

(** ** Photos, recurrence settings and the save button *)

(** X11.  A successful mark_chore_complete with a photo (non-empty bytes and
    a non-empty name) stores the completion's photo handle
    [<timestamp>_<name>] and leaves exactly one file of that name in the
    photo directory, holding the uploaded bytes; without a photo the handle
    is NULL and the directory is unchanged. *)
Theorem completion_photo_is_stored_under_its_handle
    (s : Schema) (now : string) (assignment_id actual_minutes : Z) (notes : option string)
    (photo_data : option (list Byte.byte)) (photo_filename : option string) (w : World) :
  fst (mark_chore_complete s now assignment_id actual_minutes notes
         photo_data photo_filename w) = true ->
  match saved_photo now photo_data photo_filename with
  | Some (f, bytes) =>
      photo_data = Some bytes
      /\ (exists name, photo_filename = Some name /\ f = (now ++ "_" ++ name)%string)
      /\ completions (db (snd (mark_chore_complete s now assignment_id actual_minutes notes
                                 photo_data photo_filename w)))
         = completions (db w)
           ++ [mkCompletion (next_completion_id (db w)) assignment_id actual_minutes notes
                 (Some f)]
      /\ filter (fun e => String.eqb (fst e) f)
           (chore_photos (snd (mark_chore_complete s now assignment_id actual_minutes notes
                                 photo_data photo_filename w)))
         = [(f, bytes)]
  | None =>
      completions (db (snd (mark_chore_complete s now assignment_id actual_minutes notes
                              photo_data photo_filename w)))
      = completions (db w)
        ++ [mkCompletion (next_completion_id (db w)) assignment_id actual_minutes notes None]
      /\ chore_photos (snd (mark_chore_complete s now assignment_id actual_minutes notes
                              photo_data photo_filename w))
         = chore_photos w
  end.
Proof.
  rewrite mark_chore_complete_result. destruct (reachable w) eqn:R; [|discriminate].
  rewrite try_commit_result. unfold insert_completion.
  assert (match saved_photo now photo_data photo_filename with
          | Some (f, bytes) =>
              photo_data = Some bytes
              /\ exists name, photo_filename = Some name /\ f = (now ++ "_" ++ name)%string
          | None => True
          end) as Shape.
  { unfold saved_photo. destruct photo_data as [[|b data]|]; try exact I.
    destruct photo_filename as [[|ch name]|]; try exact I. eauto. }
  destruct (saved_photo now photo_data photo_filename) as [[f bytes]|];
    cbn [option_map fst snd];
    (destruct (uq_completion_assignment s && _); [discriminate|]); intros _;
    cbn [fst snd db completions with_completions chore_photos write_file].
  - destruct Shape as [Hd Hn]. split; [exact Hd|]. split; [exact Hn|]. split; [reflexivity|].
    cbn [filter fst]. rewrite String.eqb_refl. f_equal.
    apply filter_drops_all. intros e I. apply filter_In in I. destruct I as [_ N].
    apply negb_true_iff in N. exact N.
  - split; reflexivity.
Qed.

Lemma completion_photo_witness :
  fst (mark_chore_complete strict_schema "20240101_180000" 1 12 None
         (Some [Byte.x01]) (Some "sink.jpg"%string) (online household_assigned)) = true
  /\ filter (fun e => String.eqb (fst e) "20240101_180000_sink.jpg")
       (chore_photos (snd (mark_chore_complete strict_schema "20240101_180000" 1 12 None
                             (Some [Byte.x01]) (Some "sink.jpg"%string)
                             (online household_assigned))))
     = [("20240101_180000_sink.jpg"%string, [Byte.x01])].
Proof.
  split; [reflexivity|].
  apply (completion_photo_is_stored_under_its_handle strict_schema "20240101_180000" 1 12 None
           (Some [Byte.x01]) (Some "sink.jpg"%string) (online household_assigned) eq_refl).
Defined.

(** X12.  Saving the recurrence settings of a chore on reachable storage
    succeeds and rewrites only the three recurrence columns of the rows with
    that chore id: every other row and column of the chores table, and every
    other table, stay as they are.  Disabling recurrence clears the stored
    type and days, whatever is chosen in the boxes; a type other than
    specific_days stores no days. *)
Theorem recurring_setup_rewrites_recurrence_columns_only
    (chore_id : Z) (is_recurring : bool) (recurrence_type : string)
    (days : list Weekday) (w : World) :
  reachable w = true ->
  fst (recurring_setup_save chore_id is_recurring recurrence_type days w) = true
  /\ chores (db (snd (recurring_setup_save chore_id is_recurring recurrence_type days w)))
     = map (fun c =>
              if c_id c =? chore_id
              then mkChore (c_id c) (c_room c) (c_task c) (c_estimated_time c)
                     is_recurring
                     (if is_recurring then Some recurrence_type else None)
                     (if is_recurring && String.eqb recurrence_type "specific_days"
                      then Some (join "," (map day_code days)) else None)
              else c)
           (chores (db w))
  /\ people (db (snd (recurring_setup_save chore_id is_recurring recurrence_type days w)))
     = people (db w)
  /\ assignments (db (snd (recurring_setup_save chore_id is_recurring recurrence_type days w)))
     = assignments (db w)
  /\ completions (db (snd (recurring_setup_save chore_id is_recurring recurrence_type days w)))
     = completions (db w)
  /\ parental_reviews
       (db (snd (recurring_setup_save chore_id is_recurring recurrence_type days w)))
     = parental_reviews (db w).
Proof.
  intros R. unfold recurring_setup_save, io_bind.
  destruct is_recurring; rewrite update_chore_recurring_up by exact R;
    cbn [fst snd db chores people assignments completions parental_reviews with_chores
         show io_ret andb];
    repeat split; reflexivity.
Qed.

Lemma recurring_setup_witness :
  reachable (online household) = true
  /\ chores (db (snd (recurring_setup_save 1 false "specific_days" [Tue; Thu]
                        (online household))))
     = [mkChore 1 "Kitchen" "Dishes" 15 false None None].
Proof.
  split; [reflexivity|].
  apply (recurring_setup_rewrites_recurrence_columns_only 1 false "specific_days" [Tue; Thu]
           (online household) eq_refl).
Defined.

Lemma in_sorted_chores c l : In c (fold_right insert_chore [] l) <-> In c l.
Proof.
  induction l as [|x l IH]; cbn; [tauto|].
  assert (forall m, In c (insert_chore x m) <-> c = x \/ In c m) as H.
  { induction m as [|y m IHm]; cbn; [intuition congruence|].
    destruct (chore_before x y); cbn; [intuition congruence|].
    rewrite IHm. intuition congruence. }
  rewrite H, IH. intuition congruence.
Qed.

Lemma get_all_chores_up w :
  reachable w = true ->
  get_all_chores w
  = (map (fun c => (c, recurring_status c)) (fold_right insert_chore [] (chores (db w))), w).
Proof.
  intros R. unfold get_all_chores, io_bind. rewrite get_db_connection_up by exact R.
  reflexivity.
Qed.

Lemma people_dict_person people name id :
  people_dict people name = Some id ->
  exists p, In p people /\ p_name p = name /\ p_id p = id.
Proof.
  unfold people_dict. destruct (find _ (rev people)) as [p|] eqn:F; [|discriminate].
  intros E. injection E as <-. apply find_some in F. destruct F as [I N].
  apply in_rev in I. apply String.eqb_eq in N. eauto.
Qed.

(** An assign call on reachable storage: it succeeds, and the pair then has
    its assignment with the requested person and due date. *)
Lemma assign_chore_stores_the_request s chore_id person_id d due w :
  reachable w = true ->
  fst (assign_chore s chore_id person_id d due w) = true
  /\ has_row (db (snd (assign_chore s chore_id person_id d due w))) chore_id d = true
  /\ (forall a, In a (assignments (db (snd (assign_chore s chore_id person_id d due w)))) ->
                same_slot chore_id d a = true ->
                a_person_id a = Some person_id
                /\ a_due_date a = match due with None => d | Some x => x end).
Proof.
  intros R.
  destruct (has_row (db w) chore_id d) eqn:H.
  - destruct (assign_on_existing_row s chore_id person_id d due w R H)
      as (Ok & Eq & _ & Rows).
    split; [exact Ok|]. split; [|exact Rows].
    unfold has_row in *. rewrite Eq.
    apply existsb_exists in H. destruct H as (a & I & S).
    apply existsb_exists. exists (reassign (Some person_id)
      (match due with None => d | Some x => x end) chore_id d a).
    split; [apply in_map; exact I|]. rewrite same_slot_reassign. exact S.
  - rewrite assign_chore_result, R, try_commit_result.
    unfold assign_statements, tx_bind, select_assignment_id.
    pose proof H as H'. unfold has_row in H'. rewrite existsb_find in H'.
    destruct (find (same_slot chore_id d) (assignments (db w))) eqn:F; [discriminate|].
    cbn [option_map]. unfold insert_assignment.
    change (existsb (same_slot chore_id d) (assignments (db w))) with (has_row (db w) chore_id d).
    rewrite H, andb_false_r. cbn [fst snd db assignments with_assignments].
    split; [reflexivity|]. split.
    + unfold has_row. cbn [assignments with_assignments]. rewrite has_row_after_insert.
      apply orb_true_iff. right. apply same_slot_true. cbn. auto.
    + intros a I S. apply in_app_or in I. destruct I as [I|[<-|[]]].
      * unfold has_row in H. assert (existsb (same_slot chore_id d) (assignments (db w)) = true)
          by (apply existsb_exists; eauto). congruence.
      * cbn. auto.
Qed.

(** X13.  The save button of the assign page records an assignment only for
    a chore of the catalog and a person of the family roster chosen by name
    (never for the entry "Unassigned"); the pair (chore, selected date) then
    has its assignment, with that person's id and the due date of the box.
    When the button records nothing, the database is unchanged. *)
Theorem assign_page_assigns_roster_people_to_catalog_chores
    (s : Schema) (selected_date : date) (chore_id : Z) (assigned_to : string)
    (due_date : date) (w : World) :
  (fst (assign_chores_save s selected_date chore_id assigned_to due_date w) = true ->
     assigned_to <> "Unassigned"%string
     /\ (exists c, In c (chores (db w)) /\ c_id c = chore_id)
     /\ exists p,
          In p (people (db w)) /\ p_name p = assigned_to
          /\ has_row (db (snd (assign_chores_save s selected_date chore_id assigned_to
                                 due_date w))) chore_id selected_date = true
          /\ forall a,
               In a (assignments (db (snd (assign_chores_save s selected_date chore_id
                                             assigned_to due_date w)))) ->
               same_slot chore_id selected_date a = true ->
               a_person_id a = Some (p_id p) /\ a_due_date a = due_date)
  /\ (fst (assign_chores_save s selected_date chore_id assigned_to due_date w) = false ->
        db (snd (assign_chores_save s selected_date chore_id assigned_to due_date w)) = db w).
Proof.
  unfold assign_chores_save, io_bind. destruct (reachable w) eqn:R.
  2:{ unfold get_all_chores, io_bind. rewrite get_db_connection_down by exact R.
      cbn [io_ret]. unfold get_all_people, io_bind.
      rewrite get_db_connection_down by reflexivity. cbn [io_ret].
      rewrite get_assignments_for_date_down by reflexivity.
      cbn. split; [discriminate|reflexivity]. }
  rewrite get_all_chores_up by exact R. rewrite get_all_people_up by exact R.
  rewrite get_assignments_for_date_up by exact R.
  destruct (map (fun c => (c, recurring_status c))
              (fold_right insert_chore [] (chores (db w)))) as [|c0 cs] eqn:Cs;
    [cbn; split; [discriminate|reflexivity]|].
  destruct (order_by_name (people (db w))) as [|p0 ps] eqn:Ps;
    [cbn; split; [discriminate|reflexivity]|].
  rewrite <- Cs, <- Ps. clear c0 cs Cs p0 ps Ps.
  destruct (existsb (fun c => c_id (fst c) =? chore_id)
              (map (fun c => (c, recurring_status c))
                 (fold_right insert_chore [] (chores (db w))))) eqn:Ex;
    [|cbn; split; [discriminate|reflexivity]].
  destruct (String.eqb assigned_to "Unassigned") eqn:Un;
    [cbn; split; [discriminate|reflexivity]|].
  cbn [negb andb].
  destruct (people_dict (order_by_name (people (db w))) assigned_to) as [pid|] eqn:Pd;
    [|cbn; split; [discriminate|reflexivity]].
  destruct (assign_chore_stores_the_request s chore_id pid selected_date (Some due_date) w R)
    as (Ok & Row & Rows).
  destruct (assign_chore s chore_id pid selected_date (Some due_date) w) as [ok w'] eqn:A.
  cbn [fst snd] in Ok, Row, Rows. subst ok. cbn [fst snd show io_ret db].
  split; [|discriminate]. intros _.
  split; [apply String.eqb_neq; exact Un|]. split.
  - apply existsb_exists in Ex. destruct Ex as (c & Ic & E). apply Z.eqb_eq in E.
    apply in_map_iff in Ic. destruct Ic as (c' & <- & Ic').
    apply (proj1 (in_sorted_chores _ _)) in Ic'. exists c'. auto.
  - apply people_dict_person in Pd. destruct Pd as (p & Ip & Np & Idp).
    apply (proj1 (in_order_by_name _ _)) in Ip. subst pid.
    exists p. auto.
Qed.

Example assign_page_on_the_household :
  fst (assign_chores_save strict_schema new_year_2024 1 "Timmy" (new_year_2024 + 1)
         (online household)) = true
  /\ fst (assign_chores_save strict_schema new_year_2024 1 "Unassigned" new_year_2024
            (online household)) = false
  /\ fst (assign_chores_save strict_schema new_year_2024 7 "Timmy" new_year_2024
            (online household)) = false
  /\ fst (assign_chores_save strict_schema new_year_2024 1 "Timmy" new_year_2024
            (online empty_db)) = false.
Proof. repeat split; reflexivity. Qed.

Lemma assign_page_witness :
  fst (assign_chores_save strict_schema new_year_2024 1 "Timmy" (new_year_2024 + 1)
         (online household)) = true
  /\ exists c, In c (chores (db (online household))) /\ c_id c = 1.
Proof.
  split; [reflexivity|].
  apply (assign_page_assigns_roster_people_to_catalog_chores strict_schema new_year_2024 1
           "Timmy" (new_year_2024 + 1) (online household)). reflexivity.
Defined.

(** ** What the day's list shows, and one person's share of the family report *)

Lemma left_join_inhabited {A} (l : list A) : exists o, In o (left_join l).
Proof. destruct l as [|x l]; cbn; eauto. Qed.

Lemma reviews_of_inhabited tx comp : exists o, In o (reviews_of tx comp).
Proof. destruct comp; cbn; [apply left_join_inhabited|eauto]. Qed.

Lemma reviewers_of_inhabited tx pr : exists o, In o (reviewers_of tx pr).
Proof. destruct pr; cbn; [apply left_join_inhabited|eauto]. Qed.

(** A row of the day list joins an assignment of the date with its person
    of the roster and its chore of the catalog (both joins are inner
    joins), and shows their columns. *)
Lemma assignment_view_joins tx d v :
  In v (assignment_views tx d) ->
  exists a p c,
    In a (assignments tx) /\ a_assigned_date a = d /\ a_id a = av_assignment_id v
    /\ In p (people tx) /\ a_person_id a = Some (p_id p) /\ av_assigned_to v = p_name p
    /\ av_is_completed v = has_completion tx (a_id a)
    /\ In c (chores tx) /\ c_id c = a_chore_id a
    /\ av_chore_id v = c_id c /\ av_room v = c_room c /\ av_task v = c_task c
    /\ av_estimated_time v = c_estimated_time c
    /\ av_due_date v = a_due_date a /\ av_person_id v = p_id p.
Proof.
  unfold assignment_views. intros I.
  apply in_flat_map in I. destruct I as (a & Ia & I).
  apply in_flat_map in I. destruct I as (c & Ic & I).
  apply in_flat_map in I. destruct I as (p & Ip & I).
  apply in_flat_map in I. destruct I as (comp & Icomp & I).
  apply in_flat_map in I. destruct I as (pr & Ipr & I).
  apply in_map_iff in I. destruct I as (p2 & E & _).
  apply filter_In in Ia. destruct Ia as [Ia Da]. apply Z.eqb_eq in Da.
  apply filter_In in Ic. destruct Ic as [Ic Ec]. apply Z.eqb_eq in Ec.
  apply filter_In in Ip. destruct Ip as [Ip Pp].
  assert (a_person_id a = Some (p_id p)) as Pa.
  { unfold is_person_of in Pp. destruct (a_person_id a); [|discriminate].
    apply Z.eqb_eq in Pp. congruence. }
  assert (av_is_completed v = has_completion tx (a_id a)) as Done.
  { subst v. cbn [av_is_completed]. unfold has_completion. destruct comp as [cm|].
    - apply (proj1 (left_join_some _ _)) in Icomp. symmetry. apply existsb_exists.
      exists cm. apply filter_In in Icomp. exact Icomp.
    - apply (proj1 (left_join_none _)) in Icomp. symmetry. apply not_true_is_false.
      intros H. apply existsb_exists in H. destruct H as (cm & Icm & Em).
      assert (In cm (filter (fun cm => comp_assignment_id cm =? a_id a) (completions tx)))
        as F by (apply filter_In; auto).
      rewrite Icomp in F. destruct F. }
  exists a, p, c. subst v.
  cbn [av_assignment_id av_assigned_to av_chore_id av_room av_task av_estimated_time
       av_due_date av_person_id] in *.
  repeat (split; [solve [auto]|]). reflexivity.
Qed.

(** X14.  [get_assignments_for_date] on reachable storage lists exactly the
    assignments of the date whose person is in the roster and whose chore is
    in the catalog: every listed row is such an assignment, shown with that
    person's name and id, with the id, room, task and estimated time of
    that chore of the catalog and with the assignment's due date, and
    flagged completed exactly when it has a completion; and every such
    assignment is listed.  An assignment without a person, or whose chore
    is not in the catalog, is not listed. *)
Theorem day_list_shows_assignments_with_person_and_chore
    (target_date : date) (w : World) :
  reachable w = true ->
  (forall v, In v (fst (get_assignments_for_date target_date w)) ->
             exists a p c,
               In a (assignments (db w)) /\ a_assigned_date a = target_date
               /\ a_id a = av_assignment_id v
               /\ In p (people (db w)) /\ a_person_id a = Some (p_id p)
               /\ av_assigned_to v = p_name p
               /\ av_is_completed v = has_completion (db w) (a_id a)
               /\ In c (chores (db w)) /\ c_id c = a_chore_id a
               /\ av_chore_id v = c_id c /\ av_room v = c_room c /\ av_task v = c_task c
               /\ av_estimated_time v = c_estimated_time c
               /\ av_due_date v = a_due_date a /\ av_person_id v = p_id p)
  /\ (forall a p c,
        In a (assignments (db w)) -> a_assigned_date a = target_date ->
        In p (people (db w)) -> a_person_id a = Some (p_id p) ->
        In c (chores (db w)) -> c_id c = a_chore_id a ->
        exists v, In v (fst (get_assignments_for_date target_date w))
                  /\ av_assignment_id v = a_id a
                  /\ av_chore_id v = c_id c /\ av_room v = c_room c /\ av_task v = c_task c
                  /\ av_assigned_to v = p_name p)
  /\ (forall a, In a (assignments (db w)) -> a_person_id a = None ->
                (forall b, In b (assignments (db w)) -> a_id b = a_id a -> b = a) ->
                forall v, In v (fst (get_assignments_for_date target_date w)) ->
                          av_assignment_id v <> a_id a)
  /\ (forall a, In a (assignments (db w)) ->
                (forall c, In c (chores (db w)) -> c_id c <> a_chore_id a) ->
                (forall b, In b (assignments (db w)) -> a_id b = a_id a -> b = a) ->
                forall v, In v (fst (get_assignments_for_date target_date w)) ->
                          av_assignment_id v <> a_id a).
Proof.
  intros R. rewrite get_assignments_for_date_up by exact R. cbn [fst].
  split; [|split; [|split]].
  - intros v I. apply (proj1 (order_views_in _ _)) in I.
    apply assignment_view_joins. exact I.
  - intros a p c Ia Da Ip Pa Ic Ec.
    destruct (left_join_inhabited
                (filter (fun cm => comp_assignment_id cm =? a_id a) (completions (db w))))
      as (comp & Icomp).
    destruct (reviews_of_inhabited (db w) comp) as (pr & Ipr).
    destruct (reviewers_of_inhabited (db w) pr) as (p2 & Ip2).
    eexists. split.
    + apply (proj2 (order_views_in _ _)). unfold assignment_views.
      apply in_flat_map. exists a. split.
      { apply filter_In. split; [exact Ia|]. apply Z.eqb_eq. exact Da. }
      apply in_flat_map. exists c. split.
      { apply filter_In. split; [exact Ic|]. apply Z.eqb_eq. exact Ec. }
      apply in_flat_map. exists p. split.
      { apply filter_In. split; [exact Ip|]. unfold is_person_of. rewrite Pa.
        apply Z.eqb_refl. }
      apply in_flat_map. exists comp. split; [exact Icomp|].
      apply in_flat_map. exists pr. split; [exact Ipr|].
      apply in_map_iff. exists p2. split; [reflexivity|exact Ip2].
    + cbn. auto.
  - intros a Ia Na Uid v I E.
    apply (proj1 (order_views_in _ _)) in I. apply assignment_view_origin in I.
    destruct I as (b & p & Ib & _ & Idb & _ & Pb & _).
    assert (b = a) by (apply Uid; [exact Ib|congruence]). subst b. congruence.
  - intros a Ia Nc Uid v I E.
    apply (proj1 (order_views_in _ _)) in I. apply assignment_view_joins in I.
    destruct I as (b & p & c & Ib & _ & Idb & _ & _ & _ & _ & Ic & Ec & _).
    assert (b = a) by (apply Uid; [exact Ib|congruence]). subst b.
    exact (Nc c Ic Ec).
Qed.

Lemma day_list_witness :
  reachable (online household_busy) = true
  /\ forall v, In v (fst (get_assignments_for_date new_year_2024 (online household_busy))) ->
               exists a p c,
                 In a (assignments (db (online household_busy)))
                 /\ a_assigned_date a = new_year_2024
                 /\ a_id a = av_assignment_id v
                 /\ In p (people (db (online household_busy)))
                 /\ a_person_id a = Some (p_id p)
                 /\ av_assigned_to v = p_name p
                 /\ av_is_completed v = has_completion (db (online household_busy)) (a_id a)
                 /\ In c (chores (db (online household_busy))) /\ c_id c = a_chore_id a
                 /\ av_chore_id v = c_id c /\ av_room v = c_room c /\ av_task v = c_task c
                 /\ av_estimated_time v = c_estimated_time c
                 /\ av_due_date v = a_due_date a /\ av_person_id v = p_id p.
Proof.
  split; [reflexivity|].
  apply (day_list_shows_assignments_with_person_and_chore new_year_2024
           (online household_busy) eq_refl).
Defined.

Example day_list_of_the_busy_household :
  map (fun v => (av_assignment_id v, av_task v, av_assigned_to v, av_is_completed v))
      (fst (get_assignments_for_date new_year_2024 (online household_busy)))
  = [(2, "Shoes", "Timmy", false); (1, "Dishes", "Timmy", true);
     (3, "Leaves", "Timmy", false)]%string
  /\ fst (get_assignments_for_date new_year_2024
            (snd (generate strict_schema no_anchor new_year_2024 (online household)))) = [].
Proof. split; reflexivity. Qed.

Lemma report_join_in_family_join tx person_id start_date end_date r :
  In r (report_join tx person_id start_date end_date) ->
  In (jr_assignment r, jr_completion r) (family_join tx start_date end_date).
Proof.
  unfold report_join, family_join. intros I.
  apply in_flat_map in I. destruct I as (a & Ia & I).
  apply in_flat_map in I. destruct I as (c & Ic & I).
  apply in_map_iff in I. destruct I as (oc & <- & Ioc).
  cbn [jr_assignment jr_completion fst snd].
  apply in_flat_map. exists a. split.
  - apply filter_In in Ia. destruct Ia as [Ia Pa].
    apply andb_true_iff in Pa. destruct Pa as [Pa Hi].
    apply andb_true_iff in Pa. destruct Pa as [_ Lo].
    apply filter_In. split; [exact Ia|]. rewrite Lo, Hi. reflexivity.
  - apply in_map. exact Ioc.
Qed.

(** X15.  One person's numbers never exceed the family's: for every row of
    an individual report the family report of the same range has a row of
    the same date whose total_assigned and total_completed are at least the
    person's assigned and completed. *)
Theorem individual_report_is_within_the_family_report
    (person_id : Z) (start_date end_date : date) (w : World) (row : report_row) :
  In row (fst (get_individual_report person_id start_date end_date w)) ->
  exists total,
    In total (fst (get_family_report start_date end_date w))
    /\ fr_date total = rr_date row
    /\ rr_assigned row <= fr_total_assigned total
    /\ rr_completed row <= fr_total_completed total.
Proof.
  unfold get_individual_report, get_family_report, io_bind. destruct (reachable w) eqn:R.
  2:{ rewrite !get_db_connection_down by exact R. cbn. tauto. }
  rewrite !get_db_connection_up by exact R. cbn [io_ret fst].
  unfold individual_report_query, family_report_query. intros I.
  apply in_map_iff in I. destruct I as (d & <- & I).
  apply in_group_dates in I. destruct I as (r & Ir & E).
  set (rows := report_join (db w) person_id start_date end_date) in *.
  set (frows := family_join (db w) start_date end_date).
  exists (family_group frows d).
  cbn [family_group report_group fr_date rr_date fr_total_assigned rr_assigned
       fr_total_completed rr_completed].
  split; [|split; [reflexivity|]].
  - apply in_map. apply (proj2 (in_dates _ _)). apply in_map_iff.
    exists (jr_assignment r, jr_completion r). split; [exact E|].
    apply report_join_in_family_join with (person_id := person_id). exact Ir.
  - assert (forall x, In x (filter (fun r => a_assigned_date (jr_assignment r) =? d) rows) ->
                      In (jr_assignment x, jr_completion x)
                         (filter (fun r => a_assigned_date (fst r) =? d) frows)) as Sub.
    { intros x Ix. apply filter_In in Ix. destruct Ix as [Ix Dx].
      apply filter_In. split; [|exact Dx].
      apply report_join_in_family_join with (person_id := person_id). exact Ix. }
    split; apply count_distinct_incl; intros v Iv.
    + apply in_map_iff in Iv. destruct Iv as (x & <- & Ix).
      apply in_map_iff. exists (jr_assignment x, jr_completion x). split; [reflexivity|auto].
    + apply in_map_iff in Iv. destruct Iv as (cm & <- & Icm).
      apply (proj1 (in_non_null _ _)) in Icm. apply in_map_iff in Icm.
      destruct Icm as (x & Ex & Ix).
      apply in_map. apply (proj2 (in_non_null _ _)). apply in_map_iff.
      exists (jr_assignment x, jr_completion x). split; [exact Ex|auto].
Qed.

Lemma individual_within_family_witness :
  In (mkReportRow new_year_2024 3 1 (Some 333) 50 12)
     (fst (get_individual_report 2 new_year_2024 (new_year_2024 + 6) (online household_busy)))
  /\ exists total,
       In total (fst (get_family_report new_year_2024 (new_year_2024 + 6)
                        (online household_busy)))
       /\ fr_date total = new_year_2024
       /\ 3 <= fr_total_assigned total
       /\ 1 <= fr_total_completed total.
Proof.
  assert (In (mkReportRow new_year_2024 3 1 (Some 333) 50 12)
            (fst (get_individual_report 2 new_year_2024 (new_year_2024 + 6)
                    (online household_busy)))) as I
    by (left; reflexivity).
  split; [exact I|].
  apply (individual_report_is_within_the_family_report 2 new_year_2024 (new_year_2024 + 6)
           (online household_busy) _ I).
Defined.
